(** * Langfuse MCP server: cost analysis, configuration, transport errors,
      dispatch and capability mode

    A shallow embedding of the TypeScript sources
    ([src/tools/get-cost-analysis.ts], [src/config.ts],
    [src/langfuse-client.ts], [src/index.ts]) and the properties the
    specification states about them.

    Numbers are JavaScript numbers, i.e. IEEE-754 binary64 values: they are
    modelled by Rocq's primitive floats, whose [+], [*], [/] and comparisons
    are exactly the operations the engine performs.  A field of a JSON row
    that the code reads through [||], or tests for truth, is an [option]:
    [None] stands for a missing field ([undefined]) and for [null], which
    those tests treat alike.  A field that enters arithmetic directly is a
    [Js.Field], which keeps the two apart. *)

From Stdlib Require Import Floats ZArith List String Ascii Bool Lia.
From Stdlib Require Import Decimal DecimalString QArith Qround.
From Stdlib Require Import Sorting.Permutation Sorting.Sorted.
From stdpp Require Import gmap strings list.
Import ListNotations.

Set Warnings "-inexact-float".
Local Open Scope string_scope.

(* ===================================================================== *)
(** ** The JavaScript runtime the sources rely on *)
(* ===================================================================== *)

Module Js.

(** A computation that either returns or throws. *)
Inductive Result (E A : Type) : Type :=
| Return (a : A)
| Throw (e : E).
Arguments Return {E A} a.
Arguments Throw {E A} e.

(** What a [catch (error)] clause can receive: an [Error] object with its
    [message], or any other value, of which only [String(error)] is used. *)
Inductive Thrown : Type :=
| ErrorObj (message : string)
| NonError (asString : string).

(** [error instanceof Error ? error.message : String(error)] *)
Definition errorMessageOf (error : Thrown) : string :=
  match error with
  | ErrorObj message => message
  | NonError s => s
  end.

(** *** Numbers *)

Definition isNaN (x : float) : bool := negb (PrimFloat.eqb x x).

(** Truthiness of a number: [0], [-0] and [NaN] are falsy. *)
Definition truthy (x : float) : bool :=
  negb (PrimFloat.eqb x 0%float) && negb (isNaN x).

(** [v || 0] for a numeric, missing or [null] [v]. *)
Definition orZero (v : option float) : float :=
  match v with
  | Some x => if truthy x then x else 0%float
  | None => 0%float
  end.

(** A numeric field of a parsed JSON response, as arithmetic sees it: the
    field can be missing ([undefined]), be [null], or hold a number. *)
Inductive Field : Type :=
| Undefined
| Null
| Num (x : float).

(** The number an operand of [+] is turned into: [undefined] gives [NaN],
    [null] gives [0]. *)
Definition toNumber (v : Field) : float :=
  match v with
  | Undefined => nan
  | Null => 0%float
  | Num x => x
  end.

(** [a + b] on two such fields. *)
Definition addFields (a b : Field) : float := (toNumber a + toNumber b)%float.

Definition two52 : float := 4503599627370496%float.

(** [Math.floor]: numbers of magnitude [2^52] and above are integers
    already; below, adding and removing [2^52] rounds to a nearby integer,
    which is then corrected downwards. *)
Definition Math_floor (x : float) : float :=
  if isNaN x then x
  else if PrimFloat.leb two52 (PrimFloat.abs x) then x
  else
    let r := if PrimFloat.leb 0 x
             then ((x + two52) - two52)%float
             else ((x - two52) + two52)%float in
    if PrimFloat.ltb x r then (r - 1)%float else r.

(** [Math.round]: the nearest integer, a tie going towards +infinity;
    the result keeps the sign of a negative argument that rounds to zero. *)
Definition Math_round (x : float) : float :=
  if isNaN x then x
  else if PrimFloat.leb two52 (PrimFloat.abs x) then x
  else
    let f := Math_floor x in
    let r := if PrimFloat.leb 0.5 (x - f) then (f + 1)%float else f in
    if PrimFloat.eqb r 0 && (PrimFloat.ltb x 0 || PrimFloat.ltb (1 / x) 0)
    then (-0)%float else r.

(** *** Arrays *)

(** [Array.prototype.sort(compare)] for a comparator that orders its
    arguments consistently: the sort is stable, so its result is the one of
    insertion sort.  [gt a b] says that [compare(a, b) > 0], i.e. that [a]
    has to come after [b]. *)
Section Sort.
Context {A : Type} (gt : A -> A -> bool).

Fixpoint sort_insert (x : A) (l : list A) : list A :=
  match l with
  | [] => [x]
  | y :: l' => if gt x y then y :: sort_insert x l' else x :: y :: l'
  end.

Definition Array_sort (l : list A) : list A := fold_right sort_insert [] l.

(** No element has to come after its right neighbour. *)
Fixpoint ordered (l : list A) : bool :=
  match l with
  | [] => true
  | x :: l' =>
      match l' with
      | [] => true
      | y :: _ => negb (gt x y) && ordered l'
      end
  end.

End Sort.

(** A [Map<string, V>]: its entries in insertion order.  [Map_set] on a
    key that is present replaces the value where it stands. *)
Fixpoint Map_get {V : Type} (k : string) (m : list (string * V)) : option V :=
  match m with
  | [] => None
  | (k', v) :: m' => if String.eqb k k' then Some v else Map_get k m'
  end.

Fixpoint Map_set {V : Type} (k : string) (v : V) (m : list (string * V))
  : list (string * V) :=
  match m with
  | [] => [(k, v)]
  | (k', v') :: m' =>
      if String.eqb k k' then (k, v) :: m' else (k', v') :: Map_set k v m'
  end.

(** The distinct names of a list, each at its first appearance: the order
    in which a map or a parameter list that is only written with [set]
    holds its keys. *)
Fixpoint firstOccurrences (l : list string) : list string :=
  match l with
  | [] => []
  | k :: l' => k :: List.filter (fun k' => negb (String.eqb k' k)) (firstOccurrences l')
  end.

(** [arr.slice(0, n)] *)
Definition slice0 {A : Type} (n : nat) (l : list A) : list A := firstn n l.

(** [arr.reduce((sum, x) => sum + f(x), 0)] *)
Definition sumBy {A : Type} (f : A -> float) (l : list A) : float :=
  fold_left (fun sum x => (sum + f x)%float) l 0%float.

(** *** Strings *)

(** [n.toString()] and [`${n}`] for a non-negative integer. *)
Definition showNat (n : nat) : string := NilZero.string_of_uint (Nat.to_uint n).

(** [s.startsWith(p)] *)
Definition startsWith (s p : string) : bool := String.prefix p s.

(** [s || d] for a string that may be missing: the empty string is falsy. *)
Definition orString (s : option string) (d : string) : string :=
  match s with
  | Some (String c r) => String c r
  | _ => d
  end.

(** [!s] for a string that may be missing. *)
Definition falsyString (s : option string) : bool :=
  match s with
  | Some (String _ _) => false
  | _ => true
  end.

Definition lowerAscii (c : ascii) : ascii :=
  let n := nat_of_ascii c in
  if (65 <=? n)%nat && (n <=? 90)%nat then ascii_of_nat (n + 32) else c.

(** [s.toLowerCase()], on the ASCII letters the operation labels are made
    of. *)
Fixpoint toLowerCase (s : string) : string :=
  match s with
  | EmptyString => EmptyString
  | String c r => String (lowerAscii c) (toLowerCase r)
  end.

(** [s.substring(0, n)].  A string is a sequence of bytes here and [n]
    counts them; on ASCII text, such as the keys Langfuse issues, a byte is
    a UTF-16 unit, which is what JavaScript counts. *)
Fixpoint substring0 (n : nat) (s : string) : string :=
  match n, s with
  | S n', String c r => String c (substring0 n' r)
  | _, _ => EmptyString
  end.

(** [s.split(sep)] for a one-character separator: [splitAcc] carries the
    piece read so far. *)
Fixpoint splitAcc (sep : ascii) (acc : string) (s : string) : list string :=
  match s with
  | EmptyString => [acc]
  | String c r =>
      if Ascii.eqb c sep then acc :: splitAcc sep EmptyString r
      else splitAcc sep (acc ++ String c EmptyString) r
  end.

Definition split (sep : ascii) (s : string) : list string :=
  splitAcc sep EmptyString s.

(** [s.includes(t)] *)
Fixpoint includes (s t : string) : bool :=
  String.prefix t s ||
  match s with
  | EmptyString => false
  | String _ r => includes r t
  end.

End Js.

(* ===================================================================== *)
(** ** The response envelope of a tool call *)
(* ===================================================================== *)

Module Mcp.

(** [{ type: 'text', text }] *)
Record ContentBlock : Type := mkBlock { kind : string; text : string }.

(** [{ content, isError }]; a handler that leaves [isError] out produces
    [isError = None]. *)
Record Envelope : Type := mkEnvelope {
  content : list ContentBlock;
  isError : option bool
}.

Definition textBlock (s : string) : ContentBlock := mkBlock "text" s.

End Mcp.

(* ===================================================================== *)
(** ** [getCostAnalysis] ([src/tools/get-cost-analysis.ts]) *)
(* ===================================================================== *)

Module CostAnalysis.
Import Js Mcp.

(** One entry of a day's [usage] array in the daily-metrics response.  A
    field that the code reads only as [field || default] is [None] when it
    is missing or [null], which [||] treats alike.  [inputUsage] and
    [outputUsage] are added before [||] sees them, and [+] tells a missing
    field from a [null] one. *)
Record UsageRow : Type := mkUsage {
  model : option string;
  usageTotalCost : option float;   (* usage.totalCost *)
  totalUsage : option float;
  inputUsage : Field;
  outputUsage : Field;
  countObservations : option float
}.

(** One row of the daily-metrics response; [usage = None] when the field is
    missing or is not an array. *)
Record DayRow : Type := mkDay {
  date : string;
  totalCost : option float;
  countTraces : option float;
  usage : option (list UsageRow)
}.

(** One row of the metrics response grouped by user. *)
Record MetricsRow : Type := mkMetricsRow {
  userId : option string;
  totalCost_sum : option float;
  totalTokens_sum : option float;
  count_count : option float
}.

(** [response.data], [None] when missing or not an array. *)
Record DailyResponse : Type := mkDaily { dailyRows : option (list DayRow) }.
Record MetricsResponse : Type := mkMetrics { metricsRows : option (list MetricsRow) }.

Record Filter : Type := mkFilter {
  column : string; operator : string; value : string; filterType : string
}.

Record MetricsQuery : Type := mkQuery {
  view : string;
  queryFrom : string;
  queryTo : string;
  metrics : list (string * string);     (* measure, aggregation *)
  dimensions : list string;
  filters : list Filter
}.

(** The part of [LangfuseAnalyticsClient] the tool uses. *)
Record Client : Type := mkClient {
  getProjectId : string;
  getDailyMetrics : option (list string) -> Result Thrown DailyResponse;
  getMetrics : MetricsQuery -> Result Thrown MetricsResponse
}.

(** The parsed arguments ([z.infer<typeof getCostAnalysisSchema>]). *)
Record Args : Type := mkArgs {
  from : string;
  to : string;
  environment : option string;
  includeModelBreakdown : bool;
  includeUserBreakdown : bool;
  includeDailyBreakdown : bool;
  limit : nat      (* between 5 and 100; what [slice] takes of it, its integer part *)
}.

Record ModelRow : Type := mkModelRow {
  mModel : string; mCost : float; mTokens : float; mObservations : float;
  mPercentage : float
}.

Record UserRow : Type := mkUserRow {
  uUserId : string; uCost : float; uTokens : float; uTraces : float;
  uPercentage : float
}.

Record DayOut : Type := mkDayOut {
  dDate : string; dCost : float; dTokens : float; dTraces : float
}.

Record CostAnalysis : Type := mkCostAnalysis {
  projectId : string;
  resultFrom : string;
  resultTo : string;
  resultTotalCost : float;
  byModel : option (list ModelRow);
  byUser : option (list UserRow);
  byDay : option (list DayOut)
}.

(** The value a [modelMap] entry holds. *)
Record Agg : Type := mkAgg { aCost : float; aTokens : float; aObservations : float }.

(** [v || d] for a numeric, missing or [null] [v]. *)
Definition orElse (v : option float) (d : float) : float :=
  match v with
  | Some x => if truthy x then x else d
  | None => d
  end.

(** [usage.totalUsage || usage.inputUsage + usage.outputUsage || 0] *)
Definition usageTokens (u : UsageRow) : float :=
  orElse (totalUsage u) (orElse (Some (addFields (inputUsage u) (outputUsage u))) 0%float).

(** [usage.model || 'unknown'] *)
Definition modelName (u : UsageRow) : string := orString (model u) "unknown".

Definition zeroAgg : Agg := mkAgg 0%float 0%float 0%float.

(** The body of [day.usage.forEach]. *)
Definition addUsage (modelMap : list (string * Agg)) (u : UsageRow) : list (string * Agg) :=
  let existing := default zeroAgg (Map_get (modelName u) modelMap) in
  Map_set (modelName u)
    (mkAgg (aCost existing + orZero (usageTotalCost u))%float
           (aTokens existing + usageTokens u)%float
           (aObservations existing + orZero (countObservations u))%float)
    modelMap.

(** The body of [dailyData.forEach]. *)
Definition addDay (modelMap : list (string * Agg)) (day : DayRow) : list (string * Agg) :=
  match usage day with
  | Some us => fold_left addUsage us modelMap
  | None => modelMap
  end.

Definition buildModelMap (dailyData : list DayRow) : list (string * Agg) :=
  fold_left addDay dailyData [].

(** [totalCost > 0 ? Math.round((cost / totalCost) * 100 * 100) / 100 : 0] *)
Definition percentage (totalCost cost : float) : float :=
  if PrimFloat.ltb 0 totalCost
  then (Math_round ((cost / totalCost) * 100 * 100) / 100)%float
  else 0%float.

(** [dailyData.reduce((sum, day) => sum + (day.totalCost || 0), 0)] *)
Definition sumTotalCost (dailyData : list DayRow) : float :=
  sumBy (fun day => orZero (totalCost day)) dailyData.

Definition modelBreakdown (totalCost : float) (dailyData : list DayRow) : list ModelRow :=
  map (fun e : string * Agg =>
         mkModelRow (fst e) (aCost (snd e)) (aTokens (snd e)) (aObservations (snd e))
                    (percentage totalCost (aCost (snd e))))
      (buildModelMap dailyData).

(** The comparator [(a, b) => b.cost - a.cost] is positive. *)
Definition costGt {R : Type} (cost : R -> float) (a b : R) : bool :=
  PrimFloat.ltb 0 (cost b - cost a).

Definition userBreakdown (totalCost : float) (rows : list MetricsRow) : list UserRow :=
  flat_map (fun row =>
    match userId row with
    | Some (String c r) =>
        let cost := orZero (totalCost_sum row) in
        [mkUserRow (String c r) cost (orZero (totalTokens_sum row))
                   (orZero (count_count row)) (percentage totalCost cost)]
    | _ => []
    end) rows.

Definition dayOut (day : DayRow) : DayOut :=
  mkDayOut (date day) (orZero (totalCost day))
           (match usage day with
            | Some us => sumBy usageTokens us
            | None => 0%float
            end)
           (orZero (countTraces day)).

Section WithRuntime.

(** [new Date(s).getTime()], [None] standing for the [NaN] of an invalid
    date; and [JSON.stringify(result, null, 2)]. *)
Variable Date_getTime : string -> option Z.
Variable JSON_stringify : CostAnalysis -> string.

(** [dayDate >= fromDate && dayDate <= toDate] *)
Definition inWindow (args : Args) (day : DayRow) : bool :=
  match Date_getTime (date day), Date_getTime (from args), Date_getTime (to args) with
  | Some d, Some f, Some t => (f <=? d)%Z && (d <=? t)%Z
  | _, _, _ => false
  end.

Definition dailyTags (args : Args) : option (list string) :=
  match environment args with
  | Some (String c r) => Some ["environment:" ++ String c r]
  | _ => None
  end.

(** The first [try] block: the in-window rows of the daily source; an
    exception or a response without rows leaves [dailyData] empty. *)
Definition fetchDailyData (client : Client) (args : Args) : list DayRow :=
  match getDailyMetrics client (dailyTags args) with
  | Return resp =>
      match dailyRows resp with
      | Some rows => List.filter (inWindow args) rows
      | None => []
      end
  | Throw _ => []
  end.

Definition userFilters (args : Args) : list Filter :=
  match environment args with
  | Some (String c r) => [mkFilter "environment" "equals" (String c r) "string"]
  | _ => []
  end.

Definition userQuery (args : Args) : MetricsQuery :=
  mkQuery "traces" (from args) (to args)
          [("totalCost", "sum"); ("totalTokens", "sum"); ("count", "count")]
          ["userId"] (userFilters args).

(** The comparator of the daily sort,
    [new Date(a.date).getTime() - new Date(b.date).getTime()], is positive. *)
Definition dateGt (a b : DayOut) : bool :=
  match Date_getTime (dDate a), Date_getTime (dDate b) with
  | Some x, Some y => (y <? x)%Z
  | _, _ => false
  end.

Definition computeByModel (args : Args) (totalCost : float) (dailyData : list DayRow)
  : list ModelRow :=
  slice0 (limit args) (Array_sort (costGt mCost) (modelBreakdown totalCost dailyData)).

Definition computeByUser (client : Client) (args : Args) (totalCost : float) : list UserRow :=
  match getMetrics client (userQuery args) with
  | Return resp =>
      slice0 (limit args)
        (Array_sort (costGt uCost)
           (userBreakdown totalCost (default [] (metricsRows resp))))
  | Throw _ => []
  end.

Definition computeByDay (dailyData : list DayRow) : list DayOut :=
  Array_sort dateGt (map dayOut dailyData).

(** The [result] object the tool serialises. *)
Definition costAnalysis (client : Client) (args : Args) : CostAnalysis :=
  let dailyData := fetchDailyData client args in
  let totalCost := sumTotalCost dailyData in
  mkCostAnalysis (getProjectId client) (from args) (to args) totalCost
    (if includeModelBreakdown args
     then Some (computeByModel args totalCost dailyData) else None)
    (if includeUserBreakdown args
     then Some (computeByUser client args totalCost) else None)
    (if includeDailyBreakdown args
     then Some (computeByDay dailyData) else None).

Definition getCostAnalysis (client : Client) (args : Args) : Envelope :=
  mkEnvelope [textBlock (JSON_stringify (costAnalysis client args))] None.

End WithRuntime.

End CostAnalysis.

(* ===================================================================== *)
(** ** A date parser for the concrete runs *)
(* ===================================================================== *)

(** The sources read dates with [new Date(s)]; the general development
    takes that parser as a parameter.  The runs on concrete inputs use this
    one, which reads the two ISO-8601 forms that occur in them:
    [YYYY-MM-DD] (the daily rows) and [YYYY-MM-DDTHH:MM:SSZ] (the window),
    both in UTC, as milliseconds since the epoch. *)
Module IsoDate.

Definition digit (c : ascii) : option Z :=
  let n := nat_of_ascii c in
  if (48 <=? n)%nat && (n <=? 57)%nat then Some (Z.of_nat (n - 48)) else None.

Fixpoint digits (k : nat) (acc : Z) (s : string) : option (Z * string) :=
  match k, s with
  | O, _ => Some (acc, s)
  | S k', String c r =>
      match digit c with
      | Some d => digits k' (10 * acc + d)%Z r
      | None => None
      end
  | S _, EmptyString => None
  end.

Definition expect (c : ascii) (s : string) : option string :=
  match s with
  | String c' r => if Ascii.eqb c c' then Some r else None
  | EmptyString => None
  end.

(** Days between 1970-01-01 and the given civil date. *)
Definition daysFromCivil (y m d : Z) : Z :=
  let y' := (if m <=? 2 then y - 1 else y)%Z in
  let era := (y' / 400)%Z in
  let yoe := (y' - era * 400)%Z in
  let doy := ((153 * (if 2 <? m then m - 3 else m + 9) + 2) / 5 + d - 1)%Z in
  let doe := (yoe * 365 + yoe / 4 - yoe / 100 + doy)%Z in
  (era * 146097 + doe - 719468)%Z.

Definition getTime (s : string) : option Z :=
  '(y, s) ← digits 4 0 s;
  s ← expect "-" s;
  '(m, s) ← digits 2 0 s;
  s ← expect "-" s;
  '(d, s) ← digits 2 0 s;
  if negb ((1 <=? m) && (m <=? 12) && (1 <=? d) && (d <=? 31))%Z then None
  else
    let day := (daysFromCivil y m d * 86400000)%Z in
    match s with
    | EmptyString => Some day
    | _ =>
        s ← expect "T" s;
        '(h, s) ← digits 2 0 s;
        s ← expect ":" s;
        '(mi, s) ← digits 2 0 s;
        s ← expect ":" s;
        '(sec, s) ← digits 2 0 s;
        s ← expect "Z" s;
        match s with
        | EmptyString =>
            if ((h <=? 23) && (mi <=? 59) && (sec <=? 59))%Z
            then Some (day + h * 3600000 + mi * 60000 + sec * 1000)%Z
            else None
        | _ => None
        end
    end.

End IsoDate.

(* ===================================================================== *)
(** ** Concrete daily sources *)
(* ===================================================================== *)

Module CostFixtures.
Import Js Mcp CostAnalysis.

(** A client whose two sources answer with fixed values. *)
Definition stubClient (daily : Result Thrown DailyResponse)
    (users : Result Thrown MetricsResponse) : Client :=
  mkClient "demo" (fun _ => daily) (fun _ => users).

Definition noUsers : Result Thrown MetricsResponse := Return (mkMetrics (Some [])).

Definition january (limit : nat) : Args :=
  mkArgs "2024-01-01T00:00:00Z" "2024-01-31T23:59:59Z" None true true true limit.

Definition plainDay (date : string) (cost : float) : DayRow :=
  mkDay date (Some cost) None None.

Definition usageOf (model : string) (cost tokens : float) : UsageRow :=
  mkUsage (Some model) (Some cost) (Some tokens) Undefined Undefined None.

(** Three days that the daily source does not list in date order. *)
Definition unsortedDays : list DayRow :=
  [plainDay "2024-01-01" 0.1; plainDay "2024-01-03" 0.4; plainDay "2024-01-02" 0.2].

(** The two days of end-to-end scenario A. *)
Definition scenarioA : list DayRow :=
  [mkDay "2024-01-01" (Some 1.00%float) None (Some [usageOf "gpt-4" 1.00 100]);
   mkDay "2024-01-02" (Some 2.50%float) None (Some [usageOf "gpt-4" 2.50 250])].

(** One day of total cost 1 with a model that cost 0.04265. *)
Definition oneDay : list DayRow :=
  [mkDay "2024-01-05" (Some 1%float) None
     (Some [usageOf "gpt-4" 0.95735 10; usageOf "gpt-3.5" 0.04265 10])].

(** One day with six models. *)
Definition sixModels : list DayRow :=
  [mkDay "2024-01-05" (Some 21%float) None
     (Some [usageOf "m1" 1 10; usageOf "m2" 2 10; usageOf "m3" 3 10;
            usageOf "m4" 4 10; usageOf "m5" 5 10; usageOf "m6" 6 10])].

(** Two days of January that the source lists in reverse, with a day of
    December between them. *)
Definition mixedDays : list DayRow :=
  [mkDay "2024-01-02" (Some 2.5%float) (Some 4%float)
     (Some [usageOf "gpt-3.5" 0.5 50; usageOf "gpt-4" 2 200]);
   mkDay "2023-12-31" (Some 9%float) (Some 7%float) (Some [usageOf "gpt-4" 9 900]);
   mkDay "2024-01-01" (Some 1%float) (Some 2%float)
     (Some [usageOf "gpt-3.5" 0.25 100; usageOf "gpt-4" 0.75 300])].

Definition dailyOf (rows : list DayRow) : Result Thrown DailyResponse :=
  Return (mkDaily (Some rows)).

Definition noJson : CostAnalysis -> string := fun _ => "{}".

End CostFixtures.

(* ===================================================================== *)
(** ** The breakdowns as the specification words them *)
(* ===================================================================== *)

(** These definitions follow the text of the specification, not the code;
    the properties below compare the two. *)
Module CostAnalysisSpec.
Import Js CostAnalysis.

(** "[round((row.cost / totalCost) * 10000) / 100] when totalCost > 0,
    else 0" *)
Definition percentageAsSpecified (totalCost cost : float) : float :=
  if PrimFloat.ltb 0 totalCost
  then (Math_round ((cost / totalCost) * 10000) / 100)%float
  else 0%float.

(** The exact value of a finite double. *)
Definition toQ (x : float) : option Q :=
  match Prim2SF x with
  | S754_zero _ => Some (inject_Z 0)
  | S754_finite s m e =>
      let magnitude :=
        if (0 <=? e)%Z then inject_Z (Z.pos m * 2 ^ e)
        else Qmake (Z.pos m) (Pos.pow 2 (Z.to_pos (- e))) in
      Some (if s then Qopp magnitude else magnitude)
  | _ => None
  end.

(** The same formula in exact arithmetic: the quotient times 10000,
    rounded to the nearest integer with ties upwards, over 100. *)
Definition percentageExact (totalCost cost : Q) : Q :=
  if Qle_bool totalCost (inject_Z 0) then inject_Z 0
  else Qdiv (inject_Z (Qfloor (Qplus (Qmult (Qdiv cost totalCost) (inject_Z 10000))
                                     (Qmake 1 2))))
            (inject_Z 100).

(** The usage rows nested in the given days, in order. *)
Definition allUsage (dailyData : list DayRow) : list UsageRow :=
  flat_map (fun day => default [] (usage day)) dailyData.

(** "sum cost, sum tokens, sum observation count" over the usage rows of
    one model name, "unknown" standing for a missing name. *)
Definition sumFor (k : string) (us : list UsageRow) : Agg :=
  let mine := List.filter (fun u => String.eqb (modelName u) k) us in
  mkAgg (sumBy (fun u => orZero (usageTotalCost u)) mine)
        (sumBy usageTokens mine)
        (sumBy (fun u => orZero (countObservations u)) mine).

(** "keyed by model name": one entry per name. *)
Definition aggregationAsSpecified (us : list UsageRow) : list (string * Agg) :=
  map (fun k => (k, sumFor k us)) (firstOccurrences (map modelName us)).

Definition modelRowOf (totalCost : float) (e : string * Agg) : ModelRow :=
  mkModelRow (fst e) (aCost (snd e)) (aTokens (snd e)) (aObservations (snd e))
             (percentage totalCost (aCost (snd e))).

End CostAnalysisSpec.

(* ===================================================================== *)
(** ** [getProjectConfig] ([src/config.ts]) *)
(* ===================================================================== *)

Module Config.
Import Js.

(** The three variables [getProjectConfig] reads from [process.env];
    [None] is a variable that is not set. *)
Record Env : Type := mkEnv {
  LANGFUSE_PUBLIC_KEY : option string;
  LANGFUSE_SECRET_KEY : option string;
  LANGFUSE_BASEURL : option string
}.

Record LangfuseProjectConfig : Type := mkConfig {
  id : string;
  baseUrl : string;
  publicKey : string;
  secretKey : string
}.

Definition defaultBaseUrl : string := "https://cloud.langfuse.com".

Definition missingKeysMessage : string :=
  "Missing required environment variables: LANGFUSE_PUBLIC_KEY and LANGFUSE_SECRET_KEY".

Definition insecureMessage (baseUrl : string) : string :=
  "Security Error: LANGFUSE_BASEURL must use HTTPS protocol to protect credentials. "
  ++ "Got: " ++ baseUrl ++ ". Please use https:// instead of http://".

(** [publicKey.split('-')[2]?.substring(0, 8) || 'default'] *)
Definition projectIdOf (publicKey : string) : string :=
  orString (option_map (substring0 8) (nth_error (split "-" publicKey) 2)) "default".

Definition getProjectConfig (env : Env) : Result Thrown LangfuseProjectConfig :=
  let baseUrl := orString (LANGFUSE_BASEURL env) defaultBaseUrl in
  match LANGFUSE_PUBLIC_KEY env, LANGFUSE_SECRET_KEY env with
  | Some (String c1 r1), Some (String c2 r2) =>
      let publicKey := String c1 r1 in
      let secretKey := String c2 r2 in
      if negb (startsWith baseUrl "https://")
      then Throw (ErrorObj (insecureMessage baseUrl))
      else Return (mkConfig (projectIdOf publicKey) baseUrl publicKey secretKey)
  | _, _ => Throw (ErrorObj missingKeysMessage)
  end.

(** Both keys are set and non-empty. *)
Definition keysPresent (env : Env) : bool :=
  negb (falsyString (LANGFUSE_PUBLIC_KEY env)) && negb (falsyString (LANGFUSE_SECRET_KEY env)).

End Config.

(* ===================================================================== *)
(** ** URLs and their query parameters *)
(* ===================================================================== *)

Module Url.
Import Js.

(** What the sources read of a parsed [URL]: its [pathname] and the
    name/value pairs of its [searchParams], in order. *)
Record URL : Type := mkURL {
  pathname : string;
  searchParams : list (string * string)
}.

(** [params.append(name, value)] *)
Definition params_append (name value : string) (l : list (string * string))
  : list (string * string) :=
  (l ++ [(name, value)])%list.

(** [params.set(name, value)]: the first pair of that name takes the value
    and the other pairs of that name are removed; without such a pair the
    new one is appended. *)
Fixpoint params_set (name value : string) (l : list (string * string))
  : list (string * string) :=
  match l with
  | [] => [(name, value)]
  | (n, v) :: l' =>
      if String.eqb n name
      then (n, value) :: List.filter (fun p => negb (String.eqb (fst p) name)) l'
      else (n, v) :: params_set name value l'
  end.

Definition hexDigit (n : nat) : ascii :=
  match get n "0123456789ABCDEF" with
  | Some c => c
  | None => "0"%char
  end.

(** The bytes the [application/x-www-form-urlencoded] serialiser leaves as
    they are: ASCII letters and digits, and [*], [-], [.], [_]. *)
Definition unreserved (c : ascii) : bool :=
  let n := nat_of_ascii c in
  ((48 <=? n)%nat && (n <=? 57)%nat) || ((65 <=? n)%nat && (n <=? 90)%nat)
  || ((97 <=? n)%nat && (n <=? 122)%nat)
  || (n =? 42)%nat || (n =? 45)%nat || (n =? 46)%nat || (n =? 95)%nat.

Fixpoint urlencode (s : string) : string :=
  match s with
  | EmptyString => EmptyString
  | String c r =>
      let n := nat_of_ascii c in
      if unreserved c then String c (urlencode r)
      else if (n =? 32)%nat then String "+"%char (urlencode r)
      else String "%"%char
             (String (hexDigit (n / 16)) (String (hexDigit (n mod 16)) (urlencode r)))
  end.

(** [params.toString()] *)
Definition params_toString (l : list (string * string)) : string :=
  String.concat "&" (map (fun p => urlencode (fst p) ++ "=" ++ urlencode (snd p)) l).

(** *** A URL parser for the concrete runs

    The sources parse with [new URL(s)]; the general development takes that
    parser as a parameter.  The runs on concrete inputs use this one, which
    reads absolute URLs [scheme://host/path?name=value&...] whose path has
    no dot segments and whose query has no escapes; on those it returns
    what [new URL] does. *)

(** The text before the first occurrence of [c], and the text after it when
    there is one. *)
Fixpoint breakAt (c : ascii) (s : string) : string * option string :=
  match s with
  | EmptyString => (EmptyString, None)
  | String c' r =>
      if Ascii.eqb c' c then (EmptyString, Some r)
      else let '(a, b) := breakAt c r in (String c' a, b)
  end.

Definition parsePair (piece : string) : list (string * string) :=
  match piece with
  | EmptyString => []
  | _ => let '(n, v) := breakAt "="%char piece in [(n, default EmptyString v)]
  end.

Definition parseQuery (q : string) : list (string * string) :=
  flat_map parsePair (split "&"%char q).

Definition parseSimple (s : string) : option URL :=
  let '(scheme, rest) := breakAt ":"%char s in
  match scheme, rest with
  | String _ _, Some (String "/" (String "/" afterSlashes)) =>
      let '(beforeQuery, query) := breakAt "?"%char (fst (breakAt "#"%char afterSlashes)) in
      let '(host, path) := breakAt "/"%char beforeQuery in
      match host with
      | EmptyString => None
      | _ => Some (mkURL (String "/"%char (default EmptyString path))
                         (parseQuery (default EmptyString query)))
      end
  | _, _ => None
  end.

End Url.

(* ===================================================================== *)
(** ** The HTTP client ([src/langfuse-client.ts]) *)
(* ===================================================================== *)

(** What the client methods share: requests, responses and the query of
    [listTraces]. *)
Module Transport.
Import Js Url Config.

(** A [fetch] request: the URL and the key pair of the [Authorization]
    header, which is ['Basic '] followed by the Base64 text of
    [publicKey:secretKey]. *)
Record Request : Type := mkRequest {
  requestUrl : string;
  basicAuth : option (string * string)
}.

(** A [fetch] response: [text()] and [json()] may each fail. *)
Record Response : Type := mkResponse {
  status : nat;
  statusText : string;
  responseText : Result Thrown string;
  responseJson : Result Thrown string
}.

(** [response.ok] *)
Definition ok (r : Response) : bool := (200 <=? status r)%nat && (status r <=? 299)%nat.

(** What a method does: the lines it writes with [console.error], and the
    value it returns or the exception it throws. *)
Record Outcome (A : Type) : Type := mkOutcome {
  logged : list string;
  outcome : Result Thrown A
}.
Arguments mkOutcome {A} logged outcome.
Arguments logged {A} o.
Arguments outcome {A} o.

Record TraceParams : Type := mkTraceParams {
  page : option nat;
  limit : option nat;
  name : option string;
  userId : option string;
  tags : option (list string);
  filter : option string;
  orderBy : option string;
  orderDirection : option string;
  fromTimestamp : option string;
  toTimestamp : option string
}.

(** [if (v) queryParams.append(key, v.toString())] for a number *)
Definition appendNat (key : string) (v : option nat) (q : list (string * string))
  : list (string * string) :=
  match v with
  | Some (S n) => params_append key (showNat (S n)) q
  | _ => q
  end.

(** [if (v) queryParams.append(key, v)] for a string *)
Definition appendString (key : string) (v : option string) (q : list (string * string))
  : list (string * string) :=
  match v with
  | Some (String c r) => params_append key (String c r) q
  | _ => q
  end.

Definition supportedOrderBy : list string := ["timestamp"; "name"; "totalCost"].

Definition appendOrderBy (params : TraceParams) (q : list (string * string))
  : list (string * string) :=
  match orderBy params with
  | Some (String c r) =>
      if existsb (String.eqb (String c r)) supportedOrderBy
      then
        let direction :=
          match orderDirection params with
          | Some d => if String.eqb d "asc" then "ASC" else "DESC"
          | None => "DESC"
          end in
        params_append "order_by" (String c r ++ " " ++ direction) q
      else q
  | _ => q
  end.

Definition appendTags (params : TraceParams) (q : list (string * string))
  : list (string * string) :=
  match tags params with
  | Some ts => fold_left (fun q tag => params_append "tags" tag q) ts q
  | None => q
  end.

(** The [queryParams] of [listTraces]. *)
Definition tracesQuery (params : TraceParams) : list (string * string) :=
  appendString "filter" (filter params)
    (appendTags params
       (appendString "toTimestamp" (toTimestamp params)
          (appendString "fromTimestamp" (fromTimestamp params)
             (appendOrderBy params
                (appendString "userId" (userId params)
                   (appendString "name" (name params)
                      (appendNat "limit" (limit params)
                         (appendNat "page" (page params) [])))))))).

(** [`${this.config.baseUrl}/api/public/traces?${queryParams}`] *)
Definition tracesUrl (config : LangfuseProjectConfig) (params : TraceParams) : string :=
  baseUrl config ++ "/api/public/traces?" ++ params_toString (tracesQuery params).

Definition authOf (config : LangfuseProjectConfig) : option (string * string) :=
  Some (publicKey config, secretKey config).

End Transport.

(** The client of [src/langfuse-client.ts]. *)
Module LangfuseClient.
Import Js Url Config Transport.

(** [listTraces], lines 62-121: a response that is not [ok] is turned into
    an [Error] whose message holds the status line, the URL of the request
    and the first 200 characters of the response body. *)
Definition listTraces (config : LangfuseProjectConfig)
    (fetch : Request -> Result Thrown Response) (params : TraceParams)
  : Result Thrown string :=
  let url := tracesUrl config params in
  match fetch (mkRequest url (authOf config)) with
  | Throw e => Throw e
  | Return response =>
      if negb (ok response)
      then
        match responseText response with
        | Throw e => Throw e
        | Return errorText =>
            Throw (ErrorObj ("Traces API error: " ++ showNat (status response) ++ " "
                             ++ statusText response ++ ". URL: " ++ url
                             ++ ". Response: " ++ substring0 200 errorText))
        end
      else responseJson response
  end.

(** [getTrace], lines 123-139. *)
Definition getTrace (config : LangfuseProjectConfig)
    (fetch : Request -> Result Thrown Response) (traceId : string)
  : Result Thrown string :=
  match fetch (mkRequest (baseUrl config ++ "/api/public/traces/" ++ traceId)
                         (authOf config)) with
  | Throw e => Throw e
  | Return response =>
      if negb (ok response)
      then Throw (ErrorObj ("Trace API error: " ++ showNat (status response) ++ " "
                            ++ statusText response))
      else responseJson response
  end.

End LangfuseClient.

(** The later revision of [langfuse-client.ts], in which every method
    reports a failed response through [handleApiError] and logs URLs
    through [sanitizeUrlForLogging]. *)
Module LangfuseClientRevised.
Import Js Url Config Transport.

Definition allowedParams : list string :=
  ["limit"; "page"; "view"; "orderBy"; "orderDirection"].

Definition redacted : string := "[REDACTED]".

(** The value [sanitizedParams.set] receives for a pair of the URL. *)
Definition sanitizedValue (key value : string) : string :=
  if existsb (String.eqb key) allowedParams then value else redacted.

(** The loop over [urlObj.searchParams]. *)
Definition sanitizeParams (params : list (string * string)) : list (string * string) :=
  fold_left (fun sanitizedParams p =>
               params_set (fst p) (sanitizedValue (fst p) (snd p)) sanitizedParams)
            params [].

Section WithUrlParser.

(** [new URL(url)]; [None] when the constructor throws. *)
Variable URL_parse : string -> option URL.

Definition sanitizeUrlForLogging (url : string) : string :=
  match URL_parse url with
  | Some urlObj =>
      let queryString := params_toString (sanitizeParams (searchParams urlObj)) in
      pathname urlObj ++
      match queryString with
      | EmptyString => EmptyString
      | _ => "?" ++ queryString
      end
  | None => "/api/[INVALID_URL]"
  end.

(** [handleApiError] never returns: it writes one line to the server log
    and throws.  The body of the response is read, with a placeholder when
    reading fails, and then not used. *)
Definition handleApiError {A : Type} (response : Response) (operation : string)
    (url : option string) : Outcome A :=
  let sanitizedUrl :=
    match url with
    | Some (String c r) => sanitizeUrlForLogging (String c r)
    | _ => EmptyString
    end in
  mkOutcome
    [operation ++ " API error: " ++ showNat (status response) ++ " "
     ++ statusText response
     ++ match sanitizedUrl with
        | EmptyString => EmptyString
        | _ => ". URL: " ++ sanitizedUrl
        end
     ++ ". Response: [REDACTED for security]"]
    (Throw (ErrorObj ("Failed to " ++ toLowerCase operation
                      ++ ": API returned status " ++ showNat (status response)))).

Definition listTraces (config : LangfuseProjectConfig)
    (fetch : Request -> Result Thrown Response) (params : TraceParams)
  : Outcome string :=
  let url := tracesUrl config params in
  match fetch (mkRequest url (authOf config)) with
  | Throw e => mkOutcome [] (Throw e)
  | Return response =>
      if negb (ok response)
      then handleApiError response "Traces" (Some url)
      else mkOutcome [] (responseJson response)
  end.

Definition getTrace (config : LangfuseProjectConfig)
    (fetch : Request -> Result Thrown Response) (traceId : string)
  : Outcome string :=
  match fetch (mkRequest (baseUrl config ++ "/api/public/traces/" ++ traceId)
                         (authOf config)) with
  | Throw e => mkOutcome [] (Throw e)
  | Return response =>
      if negb (ok response)
      then handleApiError response "Get Trace" None
      else mkOutcome [] (responseJson response)
  end.

End WithUrlParser.

(** *** The sanitised parameters as the specification words them *)

(** "keep only an explicit allow-list of query parameter names; replace
    every other parameter's value with a redaction marker": pair by
    pair. *)
Definition sanitizedAsSpecified (params : list (string * string)) : list (string * string) :=
  map (fun p => (fst p, sanitizedValue (fst p) (snd p))) params.



End LangfuseClientRevised.

(** Inputs for the concrete runs. *)
Module TransportFixtures.
Import Js Url Config Transport.

Definition demoConfig : LangfuseProjectConfig :=
  mkConfig "test" "https://cloud.langfuse.com" "pk-lf-test-key" "sk-lf-secret".

Definition byUser (user : string) : TraceParams :=
  mkTraceParams None (Some 10) None (Some user) None None None None None None.


(** A backend that answers every request with status 500 and the given
    body. *)
Definition failWith (body : string) : Request -> Result Thrown Response :=
  fun _ => Return (mkResponse 500 "Internal Server Error" (Return body) (Return body)).

End TransportFixtures.

(* ===================================================================== *)
(** ** The client object and its configuration *)
(* ===================================================================== *)

(** [getConfig] is about object identity, so objects live in a store: a
    reference is a number, a configuration object a finite map from
    property names to strings, as all the properties of a
    [LangfuseProjectConfig] are. *)
Module ClientObject.
Import Js Transport.

Abbreviation Obj := (gmap string string).
Abbreviation Store := (gmap nat (gmap string string)).

(** The client holds a reference to its configuration ([this.config]). *)
Record Client : Type := mkClientObject { configRef : nat }.

(** [constructor(config) { this.config = config; ... }]: the reference
    itself is kept. *)
Definition construct (config : nat) : Client := mkClientObject config.

(** [new Object], filled with the given properties. *)
Definition allocate (o : Obj) (store : Store) : nat * Store :=
  let l := fresh (dom store) in (l, <[l := o]> store).

(** [return { ...this.config }]: a new object with the properties of the
    client's configuration. *)
Definition getConfig (c : Client) (store : Store) : nat * Store :=
  allocate (default ∅ (store !! configRef c)) store.

(** What a caller can do to an object it holds. *)
Inductive Mutation : Type :=
| SetField (k v : string)       (* obj[k] = v *)
| DeleteField (k : string).     (* delete obj[k] *)

Definition mutateObj (m : Mutation) (o : Obj) : Obj :=
  match m with
  | SetField k v => <[k := v]> o
  | DeleteField k => delete k o
  end.

Definition mutate (l : nat) (store : Store) (m : Mutation) : Store :=
  match store !! l with
  | Some o => <[l := mutateObj m o]> store
  | None => store
  end.

Definition mutateAll (l : nat) (ms : list Mutation) (store : Store) : Store :=
  fold_left (mutate l) ms store.

(** [this.config[k]] *)
Definition configField (c : Client) (store : Store) (k : string) : option string :=
  store !! configRef c ≫= fun o => o !! k.

(** [getProjectId] *)
Definition getProjectId (c : Client) (store : Store) : option string :=
  configField c store "id".

(** The request [getTrace] sends. *)
Definition getTraceRequest (c : Client) (store : Store) (traceId : string)
  : option Request :=
  baseUrl ← configField c store "baseUrl";
  publicKey ← configField c store "publicKey";
  secretKey ← configField c store "secretKey";
  Some (mkRequest (baseUrl ++ "/api/public/traces/" ++ traceId)
                  (Some (publicKey, secretKey))).

(** A store with one configuration object, at reference 0. *)
Definition demoObj : Obj :=
  <["id" := "test"]> (<["baseUrl" := "https://cloud.langfuse.com"]>
    (<["publicKey" := "pk-lf-test-key"]> (<["secretKey" := "sk-lf-secret"]> ∅))).

Definition demoStore : Store := <[0%nat := demoObj]> ∅.

End ClientObject.

(* ===================================================================== *)
(** ** The call-tool handler ([src/index.ts]) and the tool handlers *)
(* ===================================================================== *)

Module Server.
Import Js Mcp.

(** The [case] labels of the dispatcher. *)
Definition toolNames : list string :=
  ["list_projects"; "project_overview"; "usage_by_model"; "usage_by_service";
   "top_expensive_traces"; "get_trace_detail"; "get_projects"; "get_metrics";
   "get_traces"; "get_observations"; "get_cost_analysis"; "get_daily_metrics";
   "get_observation_detail"; "get_health_status"; "list_models";
   "get_model_detail"; "list_prompts"; "get_prompt_detail"].

(** The handlers that wrap one client call ([listModels],
    [getModelDetail], [listPrompts], [getHealthStatus]): [call] is the
    outcome of the call, with the data already serialised by
    [JSON.stringify(data, null, 2)]. *)
Definition wrapCall (doing : string) (call : Result Thrown string) : Envelope :=
  match call with
  | Return json => mkEnvelope [textBlock json] None
  | Throw error =>
      mkEnvelope [textBlock ("Error " ++ doing ++ ": " ++ errorMessageOf error)]
                 (Some true)
  end.

Definition listModels : Result Thrown string -> Envelope := wrapCall "listing models".
Definition getModelDetail : Result Thrown string -> Envelope := wrapCall "getting model detail".
Definition listPrompts : Result Thrown string -> Envelope := wrapCall "listing prompts".
Definition getHealthStatus : Result Thrown string -> Envelope := wrapCall "getting health status".

(** The envelope the [catch] clause of the dispatcher builds. *)
Definition errorEnvelope (error : Thrown) : Envelope :=
  mkEnvelope [textBlock ("Error: " ++ errorMessageOf error)] (Some true).

Section Dispatch.

(** The raw arguments of a request, and the body of each [case]:
    [schema.parse(request.params.arguments)] followed by the handler; either
    may throw. *)
Variable RawArgs : Type.
Variable caseBody : string -> RawArgs -> Result Thrown Envelope.

(** The [try] block: the [switch] with its [default]. *)
Definition dispatch (name : string) (arguments : RawArgs) : Result Thrown Envelope :=
  if existsb (String.eqb name) toolNames
  then caseBody name arguments
  else Throw (ErrorObj ("Unknown tool: " ++ name)).

Definition callTool (name : string) (arguments : RawArgs) : Envelope :=
  match dispatch name arguments with
  | Return envelope => envelope
  | Throw error => errorEnvelope error
  end.

End Dispatch.

(** Case bodies for a run of [get_cost_analysis] on arguments that pass
    the schema. *)
Definition costAnalysisCase (client : CostAnalysis.Client)
  : string -> CostAnalysis.Args -> Result Thrown Envelope :=
  fun name args =>
    if String.eqb name "get_cost_analysis"
    then Return (CostAnalysis.getCostAnalysis IsoDate.getTime CostFixtures.noJson client args)
    else Throw (ErrorObj "not part of this run").

End Server.

(* ===================================================================== *)
(** ** The capability mode gate *)
(* ===================================================================== *)

Module ModeGate.
Import Js.

(** Modelled from the spec: the mode gate.  [mode-config.ts] and the
    revision of the server that filters its tool list by mode are not among
    the sources (only [config.ts], which calls [getServerMode], and the
    mode tests are); the definitions of this module follow sections 3, 4.3
    and 8 (P2) of the specification and the README. *)
Inductive Mode : Type := READONLY | READWRITE.

Record Descriptor : Type := mkDescriptor {
  name : string;
  mutating : bool
}.

(** An entry of the list a client sees: the externally visible name and
    the descriptor it stands for. *)
Record Visible : Type := mkVisible {
  visibleName : string;
  descriptor : Descriptor
}.

Definition writePrefix : string := "write_".

Definition expose (d : Descriptor) : Visible :=
  mkVisible (if mutating d then writePrefix ++ name d else name d) d.

(** Modelled from the spec: [filterCatalog] followed by the relabelling
    (section 4.3: READONLY excludes every mutating operation, READWRITE
    includes all and prefixes the visible name of the mutating ones). *)
Definition listOperations (mode : Mode) (catalog : list Descriptor) : list Visible :=
  match mode with
  | READONLY => map expose (List.filter (fun d => negb (mutating d)) catalog)
  | READWRITE => map expose catalog
  end.

(** Modelled from the spec: the mode of the process, from the
    [LANGFUSE_MCP_MODE] setting, READONLY being the default. *)
Definition getServerMode (setting : option string) : Mode :=
  match setting with
  | Some s => if String.eqb s "readwrite" then READWRITE else READONLY
  | None => READONLY
  end.

Record ServerState : Type := mkServer {
  mode : Mode;
  catalog : list Descriptor
}.

Definition start (setting : option string) (catalog : list Descriptor) : ServerState :=
  mkServer (getServerMode setting) catalog.

Inductive Request : Type :=
| ListOperations
| Invoke (operation : string).

Inductive Reply : Type :=
| Listing (operations : list Visible)
| Allowed (d : Descriptor)
| ModeViolation
| UnknownOperation.

(** Modelled from the spec: [authorize], checked again at dispatch
    time. *)
Definition authorize (s : ServerState) (operation : string) : Reply :=
  match List.find (fun v => String.eqb (visibleName v) operation)
                  (map expose (catalog s)) with
  | Some v =>
      match mode s, mutating (descriptor v) with
      | READONLY, true => ModeViolation
      | _, _ => Allowed (descriptor v)
      end
  | None => UnknownOperation
  end.

(** Modelled from the spec: one request, its reply, and the state the
    server is left in; the specification gives the mode no transition. *)
Definition step (s : ServerState) (r : Request) : ServerState * Reply :=
  match r with
  | ListOperations => (s, Listing (listOperations (mode s) (catalog s)))
  | Invoke operation => (s, authorize s operation)
  end.

Definition run (s : ServerState) (rs : list Request) : ServerState :=
  fold_left (fun s r => fst (step s r)) rs s.

(** The tools of [src/index.ts], none of which modifies data. *)
Definition readTools : list Descriptor :=
  map (fun n => mkDescriptor n false) Server.toolNames.

End ModeGate.

(* ===================================================================== *)
(** ** Callers of [getConfig] *)
(* ===================================================================== *)

Module Caller.
Import Js ClientObject.

(** What a caller does over time: it asks for the configuration, or it
    changes one of the objects it was handed before (the [i]-th one). *)
Inductive CallerOp : Type :=
| CallGetConfig
| MutateReturned (i : nat) (m : Mutation).

Record CallerState : Type := mkCallerState {
  store : gmap nat (gmap string string);
  returned : list nat
}.

Definition callerStep (c : Client) (s : CallerState) (op : CallerOp) : CallerState :=
  match op with
  | CallGetConfig =>
      let r := getConfig c (store s) in
      mkCallerState r.2 (returned s ++ [r.1])
  | MutateReturned i m =>
      match returned s !! i with
      | Some l => mkCallerState (mutate l (store s) m) (returned s)
      | None => s
      end
  end.

Definition callerRun (c : Client) (ops : list CallerOp) (s : CallerState) : CallerState :=
  fold_left (callerStep c) ops s.

(** What holds of a caller's state at any time: the client's configuration
    is the one it started with, and no reference handed out is the
    client's own. *)
Definition untouched (c : Client) (store0 : Store) (s : CallerState) : Prop :=
  store s !! configRef c = store0 !! configRef c /\
  Forall (fun l => l ≠ configRef c) (returned s).

End Caller.

(* ===================================================================== *)
(** ** Orders and shapes used to state further properties *)
(* ===================================================================== *)

Module CostAnalysisOrder.
Import Js CostAnalysis.

(** Both dates parse and the first is not later than the second. *)
Definition dateLe (Date_getTime : string -> option Z) (a b : DayOut) : Prop :=
  match Date_getTime (dDate a), Date_getTime (dDate b) with
  | Some x, Some y => (x <= y)%Z
  | _, _ => False
  end.

(** The date parses and lies between the bounds of the window. *)
Definition dateInWindow (Date_getTime : string -> option Z) (args : Args) (d : string) : Prop :=
  exists t f u, Date_getTime d = Some t /\ Date_getTime (from args) = Some f /\
                Date_getTime (to args) = Some u /\ (f <= t <= u)%Z.

(** The date of the row parses. *)
Definition dateValid (Date_getTime : string -> option Z) (d : DayOut) : Prop :=
  exists t, Date_getTime (dDate d) = Some t.

(** The rows the daily source answers with: none when the call throws or
    the response carries no array. *)
Definition dailySourceRows (client : Client) (args : Args) : list DayRow :=
  match getDailyMetrics client (dailyTags args) with
  | Return resp => default [] (dailyRows resp)
  | Throw _ => []
  end.

(** A missing or falsy number: what [||] skips. *)
Definition falsyNumber (v : option float) : bool :=
  match v with
  | Some x => negb (truthy x)
  | None => true
  end.

End CostAnalysisOrder.

(* ===================================================================== *)
(** ** Relations used to state what the logs depend on *)
(* ===================================================================== *)

Module LogShape.
Import Js Url Transport LangfuseClientRevised.

(** Two parameters that the sanitiser cannot tell apart: the same name,
    and the same value when the name is on the allow-list. *)
Definition alike (p q : string * string) : Prop :=
  fst p = fst q /\
  (existsb (String.eqb (fst p)) allowedParams = true -> snd p = snd q).

(** [orderBy] leads to an [order_by] parameter. *)
Definition sendsOrderBy (params : TraceParams) : bool :=
  match orderBy params with
  | Some (String c r) => existsb (String.eqb (String c r)) supportedOrderBy
  | _ => false
  end.

(** Two [listTraces] calls with the same [page] and [limit], and the same
    other parameters present (with as many tags), whatever their values. *)
Definition sameShape (p q : TraceParams) : Prop :=
  page p = page q /\ limit p = limit q /\
  falsyString (name p) = falsyString (name q) /\
  falsyString (userId p) = falsyString (userId q) /\
  sendsOrderBy p = sendsOrderBy q /\
  falsyString (fromTimestamp p) = falsyString (fromTimestamp q) /\
  falsyString (toTimestamp p) = falsyString (toTimestamp q) /\
  option_map (@length string) (tags p) = option_map (@length string) (tags q) /\
  falsyString (filter p) = falsyString (filter q).

(** The direction [listTraces] sends: ascending only on request. *)
Definition sentDirection (params : TraceParams) : string :=
  match orderDirection params with
  | Some d => if String.eqb d "asc" then "ASC" else "DESC"
  | None => "DESC"
  end.

End LogShape.

(* ===================================================================== *)
(** ** More methods of the revised client, and the tools that call them *)
(* ===================================================================== *)

Module RevisedMethods.
Import Js Mcp Url Config Transport LangfuseClientRevised.

(** The characters [encodeURIComponent] leaves as they are: ASCII letters
    and digits, and [-], [_], [.], [!], [~], [*], ['], [(], [)]. *)
Definition uriUnreserved (c : ascii) : bool :=
  let n := nat_of_ascii c in
  ((48 <=? n)%nat && (n <=? 57)%nat) || ((65 <=? n)%nat && (n <=? 90)%nat)
  || ((97 <=? n)%nat && (n <=? 122)%nat)
  || existsb (Nat.eqb n) [45; 95; 46; 33; 126; 42; 39; 40; 41]%nat.

(** [encodeURIComponent(s)], byte by byte on the UTF-8 text.  A string is
    its UTF-8 text here, so the one input on which the builtin throws, a
    lone surrogate, has no counterpart. *)
Fixpoint encodeURIComponent (s : string) : string :=
  match s with
  | EmptyString => EmptyString
  | String c r =>
      let n := nat_of_ascii c in
      if uriUnreserved c then String c (encodeURIComponent r)
      else String "%"%char
             (String (hexDigit (n / 16))
                (String (hexDigit (n mod 16)) (encodeURIComponent r)))
  end.

(** A [fetch] call with its method. *)
Record HttpRequest : Type := mkHttp {
  method : string;
  target : Request
}.

(** [if (v !== undefined) queryParams.append(key, v.toString())] *)
Definition appendDefined (key : string) (v : option nat) (q : list (string * string))
  : list (string * string) :=
  match v with
  | Some n => params_append key (showNat n) q
  | None => q
  end.

(** The invocations of the tools whose sources are at hand, with their
    arguments. *)
Inductive ToolCall : Type :=
| ListModels (limit page : option nat)
| GetModelDetail (modelId : string)
| ListPrompts (limit page : option nat) (name : option string)
| GetPromptDetail (promptName : string) (version : option nat) (label : option string)
| GetHealthStatus.

(** The URL the client method behind the tool requests. *)
Definition methodUrl (config : LangfuseProjectConfig) (call : ToolCall) : string :=
  match call with
  | ListModels limit page =>
      baseUrl config ++ "/api/public/models?"
      ++ params_toString (appendNat "page" page (appendNat "limit" limit []))
  | GetModelDetail modelId =>
      baseUrl config ++ "/api/public/models/" ++ modelId
  | ListPrompts limit page name =>
      baseUrl config ++ "/api/public/v2/prompts?"
      ++ params_toString
           (appendString "name" name (appendNat "page" page (appendNat "limit" limit [])))
  | GetPromptDetail promptName version label =>
      baseUrl config ++ "/api/public/v2/prompts/" ++ encodeURIComponent promptName ++ "?"
      ++ params_toString (appendString "label" label (appendDefined "version" version []))
  | GetHealthStatus =>
      baseUrl config ++ "/api/public/health"
  end.

(** The request: every method sends the key pair, except the health
    check, which sends no [Authorization] header. *)
Definition methodRequest (config : LangfuseProjectConfig) (call : ToolCall) : HttpRequest :=
  mkHttp "GET"
    (mkRequest (methodUrl config call)
       match call with
       | GetHealthStatus => None
       | _ => authOf config
       end).

(** The label a method passes to [handleApiError]. *)
Definition methodOperation (call : ToolCall) : string :=
  match call with
  | ListModels _ _ => "List Models"
  | GetModelDetail _ => "Get Model"
  | ListPrompts _ _ _ => "List Prompts"
  | GetPromptDetail _ _ _ => "Get Prompt"
  | GetHealthStatus => "Health Check"
  end.

(** The words of the tool's own error text. *)
Definition toolDoing (call : ToolCall) : string :=
  match call with
  | ListModels _ _ => "listing models"
  | GetModelDetail _ => "getting model detail"
  | ListPrompts _ _ _ => "listing prompts"
  | GetPromptDetail _ _ _ => "getting prompt detail"
  | GetHealthStatus => "getting health status"
  end.

(** The requests for a dataset item: the id is encoded. *)
Definition datasetItemUrl (config : LangfuseProjectConfig) (itemId : string) : string :=
  baseUrl config ++ "/api/public/dataset-items/" ++ encodeURIComponent itemId.

Definition getDatasetItemRequest (config : LangfuseProjectConfig) (itemId : string)
  : HttpRequest :=
  mkHttp "GET" (mkRequest (datasetItemUrl config itemId) (authOf config)).

Definition deleteDatasetItemRequest (config : LangfuseProjectConfig) (itemId : string)
  : HttpRequest :=
  mkHttp "DELETE" (mkRequest (datasetItemUrl config itemId) (authOf config)).

Section WithRuntime.

Variable URL_parse : string -> option URL.
(** [JSON.stringify(data, null, 2)] on the parsed body of a response. *)
Variable JSON_stringify : string -> string.

(** What every method does with the response: none of these methods hands
    the URL to [handleApiError]. *)
Definition clientMethod (config : LangfuseProjectConfig)
    (fetch : HttpRequest -> Result Thrown Response) (call : ToolCall) : Outcome string :=
  match fetch (methodRequest config call) with
  | Throw e => mkOutcome [] (Throw e)
  | Return response =>
      if negb (ok response)
      then handleApiError URL_parse response (methodOperation call) None
      else mkOutcome [] (responseJson response)
  end.

(** The tool: the [try] around the client call and [JSON.stringify], and
    the [catch] that turns an exception into an error envelope. *)
Definition runTool (config : LangfuseProjectConfig)
    (fetch : HttpRequest -> Result Thrown Response) (call : ToolCall) : Envelope :=
  match outcome (clientMethod config fetch call) with
  | Return data => mkEnvelope [textBlock (JSON_stringify data)] None
  | Throw error =>
      mkEnvelope [textBlock ("Error " ++ toolDoing call ++ ": " ++ errorMessageOf error)]
                 (Some true)
  end.

End WithRuntime.

(** The characters that would end a path segment or start a query. *)
Definition delimiter (c : ascii) : bool :=
  existsb (Ascii.eqb c) ["/"; "?"; "#"; "&"; "="; " "]%char.

Fixpoint chars (s : string) : list ascii :=
  match s with
  | EmptyString => []
  | String c r => c :: chars r
  end.

End RevisedMethods.

(* ===================================================================== *)
(** ** What a caller's references look like *)
(* ===================================================================== *)

Module CallerShape.
Import Js ClientObject Caller.

Definition isGetConfig (op : CallerOp) : bool :=
  match op with
  | CallGetConfig => true
  | MutateReturned _ _ => false
  end.

(** The references handed out so far are pairwise different, denote
    objects of the store, and were not in use in the initial store, whose
    objects all still exist. *)
Definition handedOut (store0 : gmap nat (gmap string string)) (s : CallerState) : Prop :=
  List.NoDup (returned s) /\
  (forall l, In l (returned s) -> is_Some (store s !! l) /\ store0 !! l = None) /\
  (forall l, is_Some (store0 !! l) -> is_Some (store s !! l)).

End CallerShape.

(* ===================================================================== *)
(** ** The tools behind the dispatcher *)
(* ===================================================================== *)

Module ServedTools.
Import Js Mcp Url Config Transport RevisedMethods.

(** The name under which the dispatcher serves a tool. *)
Definition toolName (call : ToolCall) : string :=
  match call with
  | ListModels _ _ => "list_models"
  | GetModelDetail _ => "get_model_detail"
  | ListPrompts _ _ _ => "list_prompts"
  | GetPromptDetail _ _ _ => "get_prompt_detail"
  | GetHealthStatus => "get_health_status"
  end.

(** The bodies of the five [case]s for arguments that pass the schema;
    [parse] reads the raw arguments of the request as a call of the tool
    of that name, or throws. *)
Definition servedCase {RawArgs : Type}
    (parse : string -> RawArgs -> Result Thrown ToolCall)
    (run : ToolCall -> Envelope) (name : string) (arguments : RawArgs)
  : Result Thrown Envelope :=
  match parse name arguments with
  | Return call => Return (run call)
  | Throw e => Throw e
  end.

End ServedTools.

(* ===================================================================== *)
(** * Properties *)
(* ===================================================================== *)

(** ** The runtime model *)

Module JsFacts.
Import Js.

Section SortFacts.
Context {A : Type} (gt : A -> A -> bool).

Lemma sort_insert_perm (x : A) (l : list A) :
  Permutation (sort_insert gt x l) (x :: l).
Proof.
  induction l as [|y l IH]; simpl.
  - reflexivity.
  - destruct (gt x y).
    + rewrite IH. apply perm_swap.
    + reflexivity.
Qed.

(** Sorting re-orders, it neither drops nor invents elements. *)
Lemma Array_sort_perm (l : list A) : Permutation (Array_sort gt l) l.
Proof.
  induction l as [|x l IH]; simpl.
  - reflexivity.
  - rewrite sort_insert_perm. now constructor.
Qed.

(** An array that is in order already is left as it is. *)
Lemma Array_sort_ordered (l : list A) :
  ordered gt l = true -> Array_sort gt l = l.
Proof.
  induction l as [|x l IH]; intros Hord.
  - reflexivity.
  - change (Array_sort gt (x :: l)) with (sort_insert gt x (Array_sort gt l)).
    destruct l as [|y l'].
    + reflexivity.
    + simpl in Hord. apply andb_prop in Hord as [Hxy Hrest].
      rewrite IH by exact Hrest.
      simpl. apply negb_true_iff in Hxy. now rewrite Hxy.
Qed.

Lemma Array_sort_In (l : list A) (x : A) : In x (Array_sort gt l) -> In x l.
Proof.
  intros H. eapply Permutation_in; [apply Array_sort_perm | exact H].
Qed.

End SortFacts.

Lemma slice0_In {A : Type} (n : nat) (l : list A) (x : A) :
  In x (slice0 n l) -> In x l.
Proof.
  unfold slice0. revert l. induction n as [|n IH]; intros [|y l]; simpl; try tauto.
  intros [->|H]; [now left | right; now apply IH].
Qed.

Lemma slice0_all {A : Type} (n : nat) (l : list A) :
  (length l <= n)%nat -> slice0 n l = l.
Proof. intros H. unfold slice0. now apply firstn_all2. Qed.

(** [Math.round] sends a tie towards +infinity, on either side of zero. *)
Example Math_round_ties :
  Math_round 2.5 = 3%float /\ Math_round (-2.5) = (-2)%float /\
  Math_round 0.5 = 1%float /\ Math_round (-0.5) = (-0)%float /\
  Math_round 3333.2999999999997 = 3333%float /\
  Math_round 0.49999999999999994 = 0%float.
Proof. repeat split; vm_compute; reflexivity. Qed.

(** Dividing zero by a positive number gives zero. *)
Lemma zero_div_pos (t : float) : PrimFloat.ltb 0 t = true -> (0 / t)%float = 0%float.
Proof.
  intros H. apply Prim2SF_inj. rewrite div_spec. rewrite ltb_spec in H.
  change (Prim2SF 0) with (S754_zero false) in *.
  destruct (Prim2SF t) as [s|s| |s m e]; simpl in *; try discriminate.
  - destruct s; [discriminate | reflexivity].
  - destruct s; [discriminate | reflexivity].
Qed.

Lemma filter_neq_comm (a b : string) (l : list string) :
  List.filter (fun k => negb (String.eqb k a)) (List.filter (fun k => negb (String.eqb k b)) l)
  = List.filter (fun k => negb (String.eqb k b)) (List.filter (fun k => negb (String.eqb k a)) l).
Proof.
  induction l as [|x l IH]; simpl; [reflexivity|].
  destruct (String.eqb x b) eqn:Eb, (String.eqb x a) eqn:Ea; simpl;
    rewrite ?Eb, ?Ea; simpl; now rewrite ?IH.
Qed.


Lemma firstOccurrences_In (k : string) (l : list string) :
  In k (firstOccurrences l) <-> In k l.
Proof.
  induction l as [|x l IH]; simpl; [tauto|].
  rewrite filter_In, IH.
  destruct (String.eqb_spec k x) as [->|Hne]; simpl; [tauto|].
  split; [tauto|]. intros [->|H]; [congruence | tauto].
Qed.

(** Appending a name: a new one goes last, a known one changes nothing. *)
Lemma firstOccurrences_snoc (l : list string) (k : string) :
  firstOccurrences (l ++ [k])%list
  = if existsb (String.eqb k) l then firstOccurrences l
    else (firstOccurrences l ++ [k])%list.
Proof.
  induction l as [|x l IH]; simpl; [reflexivity|].
  rewrite IH. destruct (String.eqb_spec k x) as [->|Hne]; simpl.
  - destruct (existsb (String.eqb x) l); [reflexivity|].
    rewrite List.filter_app. simpl. rewrite String.eqb_refl. simpl.
    now rewrite app_nil_r.
  - destruct (existsb (String.eqb k) l); [reflexivity|].
    rewrite List.filter_app. simpl.
    destruct (String.eqb_spec k x) as [->|_]; [congruence|]. reflexivity.
Qed.

Lemma firstOccurrences_NoDup (l : list string) : List.NoDup (firstOccurrences l).
Proof.
  induction l as [|x l IH]; simpl; constructor.
  - rewrite filter_In. intros [_ H]. now rewrite String.eqb_refl in H.
  - now apply List.NoDup_filter.
Qed.

(** Reading and writing a map given by its keys and a function. *)
Lemma Map_get_tabulate {V : Type} (g : string -> V) (keys : list string) (k : string) :
  Map_get k (map (fun k' => (k', g k')) keys)
  = if existsb (String.eqb k) keys then Some (g k) else None.
Proof.
  induction keys as [|x keys IH]; simpl; [reflexivity|].
  destruct (String.eqb_spec k x) as [->|Hne]; simpl; [reflexivity | apply IH].
Qed.

Lemma Map_set_tabulate_new {V : Type} (g : string -> V) (keys : list string) (k : string) (v : V) :
  existsb (String.eqb k) keys = false ->
  Map_set k v (map (fun k' => (k', g k')) keys)
  = (map (fun k' => (k', g k')) keys ++ [(k, v)])%list.
Proof.
  induction keys as [|x keys IH]; simpl; [reflexivity|].
  destruct (String.eqb k x); simpl; [discriminate|].
  intros H. now rewrite IH.
Qed.

Lemma Map_set_tabulate_old {V : Type} (g : string -> V) (keys : list string) (k : string) (v : V) :
  List.NoDup keys -> existsb (String.eqb k) keys = true ->
  Map_set k v (map (fun k' => (k', g k')) keys)
  = map (fun k' => (k', if String.eqb k' k then v else g k')) keys.
Proof.
  induction keys as [|x keys IH]; simpl; [discriminate|].
  intros Hnd Hex. inversion Hnd as [|? ? Hx Hnd']; subst.
  destruct (String.eqb_spec k x) as [->|Hne]; simpl.
  - rewrite String.eqb_refl. f_equal.
    apply map_ext_in. intros k' Hin.
    destruct (String.eqb_spec k' x) as [->|_]; [contradiction | reflexivity].
  - destruct (String.eqb_spec x k) as [->|_]; [congruence|].
    f_equal. now apply IH.
Qed.

Lemma existsb_eqb_In (k : string) (l : list string) :
  existsb (String.eqb k) l = true <-> In k l.
Proof.
  rewrite existsb_exists. split.
  - intros (x & Hin & Heq). apply String.eqb_eq in Heq. now subst.
  - intros Hin. exists k. split; [exact Hin | apply String.eqb_refl].
Qed.

Lemma existsb_firstOccurrences (k : string) (l : list string) :
  existsb (String.eqb k) (firstOccurrences l) = existsb (String.eqb k) l.
Proof.
  apply eq_true_iff_eq. rewrite !existsb_eqb_In. apply firstOccurrences_In.
Qed.

(** A string starts with each of its prefixes. *)
Lemma prefix_app (p s : string) : startsWith (p ++ s) p = true.
Proof.
  unfold startsWith. induction p as [|c p IH]; simpl.
  - destruct s; reflexivity.
  - destruct (ascii_dec c c); [exact IH | congruence].
Qed.

End JsFacts.

(* ===================================================================== *)
(** ** Cost analysis *)
(* ===================================================================== *)

Module CostAnalysisFacts.
Import Js Mcp CostAnalysis CostFixtures JsFacts.

Lemma sumBy_map {A B : Type} (f : B -> float) (g : A -> B) (l : list A) :
  sumBy f (map g l) = sumBy (fun x => f (g x)) l.
Proof.
  unfold sumBy. generalize 0%float as acc.
  induction l as [|x l IH]; intros acc; simpl; [reflexivity | apply IH].
Qed.

(** Zero or one row is in order, whatever the comparator. *)
Lemma ordered_short {A : Type} (gt : A -> A -> bool) (l : list A) :
  (length l <= 1)%nat -> ordered gt l = true.
Proof.
  destruct l as [|x [|y l]]; simpl; intros H; try reflexivity. lia.
Qed.

Section General.
Variable Date_getTime : string -> option Z.
Variable JSON_stringify : CostAnalysis -> string.

(** The total is the sum, in source order, of the costs the daily rows
    carry into [byDay]. *)
Lemma totalCost_is_source_sum (client : Client) (args : Args) :
  resultTotalCost (costAnalysis Date_getTime client args)
  = sumBy dCost (map dayOut (fetchDailyData Date_getTime client args)).
Proof.
  unfold costAnalysis; simpl. unfold sumTotalCost.
  rewrite sumBy_map. reflexivity.
Qed.

(** Every row the filter keeps has a date that parses and lies in the
    window. *)
Lemma fetchDailyData_inWindow (client : Client) (args : Args) (day : DayRow) :
  In day (fetchDailyData Date_getTime client args) ->
  inWindow Date_getTime args day = true.
Proof.
  unfold fetchDailyData.
  destruct (getDailyMetrics client (dailyTags args)) as [resp|e]; [|intros []].
  destruct (dailyRows resp) as [rows|]; [|intros []].
  intros H. apply filter_In in H. tauto.
Qed.

End General.

(** C1, the claim as written, fails: the daily source lists 1 January
    (cost 0.1), 3 January (0.4) and 2 January (0.2).  [totalCost] adds the
    costs in that order and is 0.7; [byDay] holds the rows by date, and
    its costs 0.1, 0.2, 0.4 add up to 0.7000000000000001, from the left as
    from the right.  Added exactly, the three costs do not give the value
    of [totalCost] either. *)
Lemma byDay_sum_differs_from_totalCost :
  let r := costAnalysis IsoDate.getTime (stubClient (dailyOf unsortedDays) noUsers)
             (january 20) in
  resultTotalCost r = 0.7%float /\
  option_map (map dCost) (byDay r) = Some [0.1; 0.2; 0.4]%float /\
  option_map (sumBy dCost) (byDay r) = Some 0.7000000000000001%float /\
  option_map (fun days => fold_right (fun d sum => (sum + dCost d)%float) 0%float days)
             (byDay r)
  = Some 0.7000000000000001%float /\
  option_map (fun days => PrimFloat.eqb (sumBy dCost days) (resultTotalCost r)) (byDay r)
  = Some false /\
  match CostAnalysisSpec.toQ 0.1, CostAnalysisSpec.toQ 0.2, CostAnalysisSpec.toQ 0.4,
        CostAnalysisSpec.toQ (resultTotalCost r) with
  | Some a, Some b, Some c, Some t => Qeq_bool (Qplus (Qplus a b) c) t = false
  | _, _, _, _ => False
  end.
Proof.
  cbv zeta. do 5 (split; [vm_compute; reflexivity|]). vm_compute. reflexivity.
Qed.

(** C1, amended: [byDay] holds exactly the in-window rows of the daily
    source, re-ordered; [totalCost] is the sum of their costs in the order
    of the source; hence the costs of [byDay], added in its own order, give
    [totalCost] exactly whenever the in-window rows come in ascending date
    order already, as zero rows and a single row always do. *)
Theorem byDay_costs_and_totalCost
    (Date_getTime : string -> option Z) (client : Client) (args : Args)
    (days : list DayOut) :
  byDay (costAnalysis Date_getTime client args) = Some days ->
  let rows := map dayOut (fetchDailyData Date_getTime client args) in
  let total := resultTotalCost (costAnalysis Date_getTime client args) in
  Permutation days rows /\
  sumBy dCost rows = total /\
  (ordered (dateGt Date_getTime) rows = true -> sumBy dCost days = total) /\
  ((length rows <= 1)%nat -> sumBy dCost days = total).
Proof.
  intros Hdays rows total.
  assert (Hsort : days = Array_sort (dateGt Date_getTime) rows).
  { unfold costAnalysis in Hdays; simpl in Hdays.
    destruct (includeDailyBreakdown args); [|discriminate].
    injection Hdays as <-. reflexivity. }
  assert (Htotal : sumBy dCost rows = total).
  { subst total rows. symmetry. apply totalCost_is_source_sum. }
  assert (Hord : ordered (dateGt Date_getTime) rows = true -> sumBy dCost days = total).
  { intros Ho. rewrite Hsort, Array_sort_ordered by exact Ho. exact Htotal. }
  repeat split.
  - rewrite Hsort. apply Array_sort_perm.
  - exact Htotal.
  - exact Hord.
  - intros Hlen. apply Hord. now apply ordered_short.
Qed.

Lemma byDay_costs_and_totalCost_witness :
  let c := stubClient (dailyOf scenarioA) noUsers in
  let r := costAnalysis IsoDate.getTime c (january 20) in
  let rows := map dayOut (fetchDailyData IsoDate.getTime c (january 20)) in
  let days := Array_sort (dateGt IsoDate.getTime) rows in
  byDay r = Some days /\
  ordered (dateGt IsoDate.getTime) rows = true /\
  sumBy dCost days = resultTotalCost r.
Proof.
  split; [reflexivity|]. split; [vm_compute; reflexivity|].
  destruct (byDay_costs_and_totalCost IsoDate.getTime
              (stubClient (dailyOf scenarioA) noUsers) (january 20)
              (Array_sort (dateGt IsoDate.getTime)
                 (map dayOut (fetchDailyData IsoDate.getTime
                    (stubClient (dailyOf scenarioA) noUsers) (january 20))))
              eq_refl) as (_ & _ & Hord & _).
  apply Hord. vm_compute; reflexivity.
Defined.

End CostAnalysisFacts.

Module AggregationFacts.
Import Js Mcp CostAnalysis CostAnalysisSpec CostFixtures JsFacts.

Lemma sumBy_snoc {A : Type} (f : A -> float) (l : list A) (x : A) :
  sumBy f (l ++ [x])%list = (sumBy f l + f x)%float.
Proof. unfold sumBy. now rewrite fold_left_app. Qed.

(** The sums of a name after one more usage row. *)
Lemma sumFor_snoc (k : string) (us : list UsageRow) (u : UsageRow) :
  sumFor k (us ++ [u])%list
  = if String.eqb (modelName u) k
    then mkAgg (aCost (sumFor k us) + orZero (usageTotalCost u))%float
               (aTokens (sumFor k us) + usageTokens u)%float
               (aObservations (sumFor k us) + orZero (countObservations u))%float
    else sumFor k us.
Proof.
  unfold sumFor. rewrite List.filter_app. simpl.
  destruct (String.eqb (modelName u) k); simpl.
  - now rewrite !sumBy_snoc.
  - now rewrite app_nil_r.
Qed.

Lemma sumFor_absent (k : string) (us : list UsageRow) :
  existsb (String.eqb k) (map modelName us) = false -> sumFor k us = zeroAgg.
Proof.
  intros H. unfold sumFor.
  assert (E : List.filter (fun u => String.eqb (modelName u) k) us = []).
  { induction us as [|u us IH]; simpl in *; [reflexivity|].
    apply orb_false_iff in H as [H1 H2].
    rewrite String.eqb_sym, H1. now apply IH. }
  rewrite E. reflexivity.
Qed.

(** One more usage row updates the specified aggregation exactly as the
    body of the loop updates the map. *)
Lemma aggregation_snoc (us : list UsageRow) (u : UsageRow) :
  aggregationAsSpecified (us ++ [u])%list = addUsage (aggregationAsSpecified us) u.
Proof.
  unfold aggregationAsSpecified, addUsage.
  rewrite map_app. simpl map at 1.
  rewrite firstOccurrences_snoc, Map_get_tabulate, existsb_firstOccurrences.
  destruct (existsb (String.eqb (modelName u)) (map modelName us)) eqn:Hex.
  - simpl default.
    rewrite Map_set_tabulate_old;
      [| apply firstOccurrences_NoDup | now rewrite existsb_firstOccurrences].
    apply map_ext. intros k. f_equal. rewrite sumFor_snoc.
    rewrite (String.eqb_sym k). destruct (String.eqb_spec (modelName u) k) as [->|_]; reflexivity.
  - simpl default.
    rewrite Map_set_tabulate_new by now rewrite existsb_firstOccurrences.
    rewrite map_app. simpl. f_equal.
    + apply map_ext_in. intros k Hin. f_equal. rewrite sumFor_snoc.
      destruct (String.eqb_spec (modelName u) k) as [<-|_]; [|reflexivity].
      exfalso. apply (proj1 (firstOccurrences_In _ _)) in Hin.
      apply (proj2 (existsb_eqb_In _ _)) in Hin. congruence.
    + do 2 f_equal. rewrite sumFor_snoc, String.eqb_refl.
      now rewrite (sumFor_absent _ _ Hex).
Qed.

Lemma fold_addUsage (us : list UsageRow) :
  fold_left addUsage us [] = aggregationAsSpecified us.
Proof.
  induction us as [|u us IH] using rev_ind; [reflexivity|].
  now rewrite fold_left_app, IH, aggregation_snoc.
Qed.

Lemma fold_addDay (dailyData : list DayRow) (m : list (string * Agg)) :
  fold_left addDay dailyData m = fold_left addUsage (allUsage dailyData) m.
Proof.
  revert m. induction dailyData as [|d ds IH]; intros m; simpl; [reflexivity|].
  rewrite fold_left_app, IH. f_equal. unfold addDay.
  destruct (usage d); reflexivity.
Qed.

(** The map the code builds is the aggregation the specification
    describes. *)
Lemma buildModelMap_spec (dailyData : list DayRow) :
  buildModelMap dailyData = aggregationAsSpecified (allUsage dailyData).
Proof. unfold buildModelMap. now rewrite fold_addDay, fold_addUsage. Qed.

End AggregationFacts.

Module BreakdownFacts.
Import Js Mcp CostAnalysis CostAnalysisSpec CostFixtures JsFacts AggregationFacts.

Lemma modelBreakdown_spec (totalCost : float) (dailyData : list DayRow) :
  modelBreakdown totalCost dailyData
  = map (modelRowOf totalCost) (aggregationAsSpecified (allUsage dailyData)).
Proof. unfold modelBreakdown. now rewrite buildModelMap_spec. Qed.

(** A cost of zero is zero percent of any total. *)
Lemma percentage_of_zero (t : float) : percentage t 0 = 0%float.
Proof.
  unfold percentage. destruct (PrimFloat.ltb 0 t) eqn:Ht; [|reflexivity].
  rewrite (zero_div_pos t Ht). vm_compute. reflexivity.
Qed.

(** C8, the claim as written, fails: with six models in the window and
    [limit] 5 (the least value the schema admits) the aggregation has six
    keys and [byModel] only five rows; model "m1" is missing. *)
Lemma byModel_omits_models_beyond_limit :
  let c := stubClient (dailyOf sixModels) noUsers in
  let r := costAnalysis IsoDate.getTime c (january 5) in
  map fst (aggregationAsSpecified (allUsage (fetchDailyData IsoDate.getTime c (january 5))))
  = ["m1"; "m2"; "m3"; "m4"; "m5"; "m6"] /\
  option_map (map mModel) (byModel r) = Some ["m6"; "m5"; "m4"; "m3"; "m2"].
Proof. split; vm_compute; reflexivity. Qed.

(** C8, amended: [byModel] is the aggregation of the in-window usage rows
    by model name ("unknown" for a row without one; cost, tokens and
    observations summed per name), sorted by descending cost and cut to
    the first [limit] rows; it is the whole aggregation when there are at
    most [limit] names.  Scenario A gives a total of 3.50 and the single
    row gpt-4 / 3.50 / 350 tokens / 100 percent. *)
Theorem byModel_is_truncated_aggregation
    (Date_getTime : string -> option Z) (client : Client) (args : Args)
    (rows : list ModelRow) :
  byModel (costAnalysis Date_getTime client args) = Some rows ->
  let total := resultTotalCost (costAnalysis Date_getTime client args) in
  let full := map (modelRowOf total)
                (aggregationAsSpecified (allUsage (fetchDailyData Date_getTime client args))) in
  rows = slice0 (limit args) (Array_sort (costGt mCost) full) /\
  (forall row, In row rows -> In row full) /\
  ((length full <= limit args)%nat -> Permutation rows full) /\
  (forall u, model u = None \/ model u = Some "" -> modelName u = "unknown") /\
  (let a := costAnalysis IsoDate.getTime (stubClient (dailyOf scenarioA) noUsers)
              (january 20) in
   resultTotalCost a = 3.5%float /\
   byModel a = Some [mkModelRow "gpt-4" 3.5 350 0 100]).
Proof.
  intros Hrows total full.
  assert (E : rows = slice0 (limit args) (Array_sort (costGt mCost) full)).
  { unfold costAnalysis in Hrows; simpl in Hrows.
    destruct (includeModelBreakdown args); [|discriminate].
    injection Hrows as <-. unfold computeByModel.
    now rewrite modelBreakdown_spec. }
  split; [exact E|]. split; [|split; [|split]].
  - intros row Hin. rewrite E in Hin.
    now apply slice0_In, Array_sort_In in Hin.
  - intros Hlen. rewrite E, slice0_all.
    + apply Array_sort_perm.
    + now rewrite (Permutation_length (Array_sort_perm _ _)).
  - intros u [H|H]; unfold modelName; now rewrite H.
  - split; vm_compute; reflexivity.
Qed.

Lemma byModel_is_truncated_aggregation_witness :
  let c := stubClient (dailyOf scenarioA) noUsers in
  let r := costAnalysis IsoDate.getTime c (january 20) in
  let full := map (modelRowOf (resultTotalCost r))
                (aggregationAsSpecified (allUsage (fetchDailyData IsoDate.getTime c (january 20)))) in
  byModel r = Some [mkModelRow "gpt-4" 3.5 350 0 100] /\
  [mkModelRow "gpt-4" 3.5 350 0 100] = slice0 20 (Array_sort (costGt mCost) full).
Proof.
  split; [vm_compute; reflexivity|].
  assert (H : byModel (costAnalysis IsoDate.getTime
                         (stubClient (dailyOf scenarioA) noUsers) (january 20))
              = Some [mkModelRow "gpt-4" 3.5 350 0 100])
    by (vm_compute; reflexivity).
  exact (proj1 (byModel_is_truncated_aggregation IsoDate.getTime
                  (stubClient (dailyOf scenarioA) noUsers) (january 20)
                  [mkModelRow "gpt-4" 3.5 350 0 100] H)).
Defined.

(** C3, the claim as written, fails: a model that cost 0.04265 of a total
    of 1 gets 4.26 from the code, which multiplies by 100 twice
    (0.04265 * 100 * 100 is 426.49999999999994).  The formula of the claim
    gives 4.27, whether it is evaluated in double precision
    (0.04265 * 10000 is 426.5), exactly on the values of the doubles, or on
    the decimal fractions. *)
Lemma percentage_differs_from_specified_formula :
  let r := costAnalysis IsoDate.getTime (stubClient (dailyOf oneDay) noUsers) (january 20) in
  resultTotalCost r = 1%float /\
  option_map (map (fun row => (mModel row, mCost row, mPercentage row))) (byModel r)
  = Some [("gpt-4", 0.95735%float, 95.74%float); ("gpt-3.5", 0.04265%float, 4.26%float)] /\
  percentageAsSpecified 1 0.04265 = 4.27%float /\
  PrimFloat.eqb (percentage 1 0.04265) (percentageAsSpecified 1 0.04265) = false /\
  match toQ 1, toQ 0.04265 with
  | Some t, Some c => Qred (percentageExact t c) = Qmake 427 100
  | _, _ => False
  end /\
  Qred (percentageExact (inject_Z 1) (Qmake 4265 100000)) = Qmake 427 100.
Proof.
  cbv zeta. do 5 (split; [vm_compute; reflexivity|]). vm_compute. reflexivity.
Qed.

(** C3, amended: the percentage of every row of the model and user
    breakdowns is [Math.round(((cost / totalCost) * 100) * 100) / 100],
    computed in double precision with the two multiplications by 100 in
    that order and ties rounded towards +infinity, when [totalCost > 0],
    and 0 otherwise; 33.333 of 100 gives 33.33, and a cost of 0 gives 0
    whatever the total. *)
Theorem percentage_of_breakdown_rows
    (Date_getTime : string -> option Z) (client : Client) (args : Args) :
  let r := costAnalysis Date_getTime client args in
  let total := resultTotalCost r in
  let pct (cost : float) :=
    if PrimFloat.ltb 0 total
    then (Math_round (((cost / total) * 100) * 100) / 100)%float
    else 0%float in
  (forall rows row, byModel r = Some rows -> In row rows ->
                    mPercentage row = pct (mCost row)) /\
  (forall rows row, byUser r = Some rows -> In row rows ->
                    uPercentage row = pct (uCost row)) /\
  percentage 100 33.333 = 33.33%float /\
  (forall t, percentage t 0 = 0%float).
Proof.
  intros r total pct. split; [|split; [|split]].
  - intros rows row Hrows Hin.
    subst r. unfold costAnalysis in Hrows; simpl in Hrows.
    destruct (includeModelBreakdown args); [|discriminate].
    injection Hrows as <-. unfold computeByModel in Hin.
    apply slice0_In, Array_sort_In in Hin.
    unfold modelBreakdown in Hin. apply in_map_iff in Hin as (e & <- & _).
    reflexivity.
  - intros rows row Hrows Hin.
    subst r. unfold costAnalysis in Hrows; simpl in Hrows.
    destruct (includeUserBreakdown args); [|discriminate].
    injection Hrows as <-. unfold computeByUser in Hin.
    destruct (getMetrics client (userQuery args)) as [resp|e]; [|destruct Hin].
    apply slice0_In, Array_sort_In in Hin.
    unfold userBreakdown in Hin. apply in_flat_map in Hin as (mrow & _ & Hin).
    destruct (userId mrow) as [[|c s]|]; simpl in Hin; try tauto.
    destruct Hin as [<-|[]]. reflexivity.
  - vm_compute. reflexivity.
  - apply percentage_of_zero.
Qed.

Lemma percentage_of_breakdown_rows_witness :
  let r := costAnalysis IsoDate.getTime (stubClient (dailyOf scenarioA) noUsers) (january 20) in
  byModel r = Some [mkModelRow "gpt-4" 3.5 350 0 100] /\
  mPercentage (mkModelRow "gpt-4" 3.5 350 0 100)
  = (if PrimFloat.ltb 0 (resultTotalCost r)
     then (Math_round (((3.5 / resultTotalCost r) * 100) * 100) / 100)%float
     else 0%float).
Proof.
  split; [vm_compute; reflexivity|].
  assert (H : byModel (costAnalysis IsoDate.getTime
                         (stubClient (dailyOf scenarioA) noUsers) (january 20))
              = Some [mkModelRow "gpt-4" 3.5 350 0 100])
    by (vm_compute; reflexivity).
  exact (proj1 (percentage_of_breakdown_rows IsoDate.getTime
                  (stubClient (dailyOf scenarioA) noUsers) (january 20))
               [mkModelRow "gpt-4" 3.5 350 0 100] (mkModelRow "gpt-4" 3.5 350 0 100)
               H (or_introl eq_refl)).
Defined.

End BreakdownFacts.

(* ===================================================================== *)
(** ** Configuration *)
(* ===================================================================== *)

Module ConfigFacts.
Import Js Config.

Example projectIdOf_examples :
  projectIdOf "pk-lf-1234567890abcdef" = "12345678" /\
  projectIdOf "pk-lf-test-key" = "test" /\
  projectIdOf "nokey" = "default" /\
  projectIdOf "pk-lf-" = "default".
Proof. repeat split; reflexivity. Qed.

(** C4, the claim as written, fails in two ways.  The keys are checked
    before the URL, so an [http://] URL with a key missing is answered
    with the missing-variables error, not with the security error; and a
    base URL set to the empty string is replaced by the default, so
    resolution succeeds although the configured string does not start
    with [https://]. *)
Lemma non_https_url_without_security_error :
  startsWith "http://localhost:3000" "https://" = false /\
  getProjectConfig (mkEnv None (Some "sk-lf-secret") (Some "http://localhost:3000"))
  = Throw (ErrorObj missingKeysMessage) /\
  startsWith "" "https://" = false /\
  getProjectConfig (mkEnv (Some "pk-lf-test-key") (Some "sk-lf-secret") (Some ""))
  = Return (mkConfig "test" "https://cloud.langfuse.com" "pk-lf-test-key" "sk-lf-secret").
Proof. repeat split; reflexivity. Qed.

(** C4, amended: the base URL in force is the configured one when it is
    set and not empty, and [https://cloud.langfuse.com] otherwise.
    Resolution fails with the missing-variables error whenever a key is
    absent or empty, whatever the URL; with both keys present it fails with
    the security error when the base URL in force does not start with
    [https://] and returns the configuration when it does.  So no
    configuration is ever returned for a non-empty configured URL that does
    not start with [https://]. *)
Theorem getProjectConfig_outcomes (env : Env) :
  let url := orString (LANGFUSE_BASEURL env) defaultBaseUrl in
  (forall c r, LANGFUSE_BASEURL env = Some (String c r) -> url = String c r) /\
  (keysPresent env = false ->
   getProjectConfig env = Throw (ErrorObj missingKeysMessage)) /\
  (keysPresent env = true -> startsWith url "https://" = false ->
   getProjectConfig env = Throw (ErrorObj (insecureMessage url))) /\
  (keysPresent env = true -> startsWith url "https://" = true ->
   exists pk sk, LANGFUSE_PUBLIC_KEY env = Some pk /\ LANGFUSE_SECRET_KEY env = Some sk /\
     getProjectConfig env = Return (mkConfig (projectIdOf pk) url pk sk)) /\
  (startsWith url "https://" = false ->
   forall cfg, getProjectConfig env <> Return cfg).
Proof.
  intros url. unfold getProjectConfig, keysPresent. fold url.
  destruct env as [pk sk bu]; simpl in *.
  split; [intros c r ->; reflexivity|].
  destruct pk as [[|c1 r1]|], sk as [[|c2 r2]|]; simpl;
    repeat split; try discriminate; try reflexivity;
    try (intros _ ->; reflexivity);
    try (intros ->; simpl; discriminate).
  intros _ ->. simpl. eauto.
Qed.

Lemma getProjectConfig_outcomes_witness :
  let env := mkEnv (Some "pk-lf-test-key") (Some "sk-lf-secret") (Some "http://localhost:3000") in
  keysPresent env = true /\
  startsWith "http://localhost:3000" "https://" = false /\
  getProjectConfig env = Throw (ErrorObj (insecureMessage "http://localhost:3000")).
Proof.
  split; [reflexivity|]. split; [reflexivity|].
  exact (proj1 (proj2 (proj2 (getProjectConfig_outcomes
           (mkEnv (Some "pk-lf-test-key") (Some "sk-lf-secret")
                  (Some "http://localhost:3000")))))
         eq_refl eq_refl).
Defined.

End ConfigFacts.

(* ===================================================================== *)
(** ** Log sanitisation *)
(* ===================================================================== *)

Module SanitizeFacts.
Import Js Url Config Transport LangfuseClientRevised JsFacts.








End SanitizeFacts.

(* ===================================================================== *)
(** ** Errors of the transport *)
(* ===================================================================== *)

Module TransportFacts.
Import Js Url Config Transport TransportFixtures.

(** The exception [handleApiError] throws is made of the operation label
    and the status code, and of nothing else. *)
Lemma handleApiError_message {A : Type} (URL_parse : string -> option URL)
    (response : Response) (operation : string) (url : option string) :
  outcome (LangfuseClientRevised.handleApiError (A := A) URL_parse response operation url)
  = Throw (ErrorObj ("Failed to " ++ toLowerCase operation
                     ++ ": API returned status " ++ showNat (status response))).
Proof. reflexivity. Qed.

(** In the revised client two failed [listTraces] calls with the same
    status throw the same exception, whatever the bodies of the responses
    and the parameters of the requests. *)
Lemma revised_listTraces_error_is_generic (URL_parse : string -> option URL)
    (config : LangfuseProjectConfig) (fetch fetch' : Request -> Result Thrown Response)
    (params params' : TraceParams) (r r' : Response) :
  fetch (mkRequest (tracesUrl config params) (authOf config)) = Return r ->
  fetch' (mkRequest (tracesUrl config params') (authOf config)) = Return r' ->
  ok r = false -> status r' = status r ->
  outcome (LangfuseClientRevised.listTraces URL_parse config fetch params)
  = Throw (ErrorObj ("Failed to traces: API returned status " ++ showNat (status r))) /\
  outcome (LangfuseClientRevised.listTraces URL_parse config fetch' params')
  = outcome (LangfuseClientRevised.listTraces URL_parse config fetch params).
Proof.
  intros Hf Hf' Hok Hst.
  assert (Hok' : ok r' = false) by (unfold ok in *; now rewrite Hst).
  unfold LangfuseClientRevised.listTraces.
  rewrite Hf, Hf', Hok, Hok'. simpl negb. cbv iota.
  rewrite !handleApiError_message, Hst. split; reflexivity.
Qed.

Lemma revised_listTraces_error_is_generic_witness :
  outcome (LangfuseClientRevised.listTraces parseSimple demoConfig
             (failWith "relation traces: permission denied for alice")
             (byUser "alice@example.com"))
  = Throw (ErrorObj "Failed to traces: API returned status 500") /\
  outcome (LangfuseClientRevised.listTraces parseSimple demoConfig (failWith "timeout")
             (byUser "bob"))
  = outcome (LangfuseClientRevised.listTraces parseSimple demoConfig
               (failWith "relation traces: permission denied for alice")
               (byUser "alice@example.com")).
Proof.
  exact (revised_listTraces_error_is_generic parseSimple demoConfig
           (failWith "relation traces: permission denied for alice") (failWith "timeout")
           (byUser "alice@example.com") (byUser "bob")
           (mkResponse 500 "Internal Server Error"
              (Return "relation traces: permission denied for alice")
              (Return "relation traces: permission denied for alice"))
           (mkResponse 500 "Internal Server Error" (Return "timeout") (Return "timeout"))
           eq_refl eq_refl eq_refl eq_refl).
Defined.

(** C6 on [listTraces] of [src/langfuse-client.ts]: the backend answers
    500 to a query by user id.  The message of the exception holds the
    whole URL, with the user id in its query string, and the body of the
    response; changing only the body, or only the user id, changes the
    message.  The revised client throws the same generic exception in all
    three runs. *)
Theorem listTraces_error_exposes_url_and_body :
  let run body user := LangfuseClient.listTraces demoConfig (failWith body) (byUser user) in
  let revised body user :=
    outcome (LangfuseClientRevised.listTraces parseSimple demoConfig (failWith body)
               (byUser user)) in
  run "relation traces: permission denied for alice" "alice@example.com"
  = Throw (ErrorObj
      ("Traces API error: 500 Internal Server Error. URL: "
       ++ "https://cloud.langfuse.com/api/public/traces?limit=10&userId=alice%40example.com"
       ++ ". Response: relation traces: permission denied for alice")) /\
  run "timeout" "alice@example.com"
  = Throw (ErrorObj
      ("Traces API error: 500 Internal Server Error. URL: "
       ++ "https://cloud.langfuse.com/api/public/traces?limit=10&userId=alice%40example.com"
       ++ ". Response: timeout")) /\
  run "timeout" "bob"
  = Throw (ErrorObj
      ("Traces API error: 500 Internal Server Error. URL: "
       ++ "https://cloud.langfuse.com/api/public/traces?limit=10&userId=bob"
       ++ ". Response: timeout")) /\
  run "timeout" "alice@example.com"
  <> run "relation traces: permission denied for alice" "alice@example.com" /\
  run "timeout" "bob" <> run "timeout" "alice@example.com" /\
  revised "relation traces: permission denied for alice" "alice@example.com"
  = Throw (ErrorObj "Failed to traces: API returned status 500") /\
  revised "timeout" "alice@example.com"
  = Throw (ErrorObj "Failed to traces: API returned status 500") /\
  revised "timeout" "bob"
  = Throw (ErrorObj "Failed to traces: API returned status 500").
Proof.
  cbv zeta. repeat split; try reflexivity; vm_compute; discriminate.
Qed.

End TransportFacts.

(* ===================================================================== *)
(** ** [getConfig] hands out a copy *)
(* ===================================================================== *)

Module ClientObjectFacts.
Import Js Transport ClientObject.

Lemma mutate_other (l l' : nat) (store : Store) (m : Mutation) :
  l' ≠ l -> mutate l store m !! l' = store !! l'.
Proof.
  intros Hne. unfold mutate.
  destruct (store !! l); [|reflexivity].
  now rewrite lookup_insert_ne.
Qed.

Lemma mutateAll_other (l l' : nat) (ms : list Mutation) (store : Store) :
  l' ≠ l -> mutateAll l ms store !! l' = store !! l'.
Proof.
  intros Hne. unfold mutateAll. revert store.
  induction ms as [|m ms IH]; intros store; simpl; [reflexivity|].
  rewrite IH. now apply mutate_other.
Qed.

Lemma allocate_fresh (o : Obj) (store : Store) :
  store !! (allocate o store).1 = None.
Proof.
  unfold allocate; simpl. apply not_elem_of_dom, is_fresh.
Qed.

(** The constructor keeps the reference it is given: whoever holds that
    object still changes the client's configuration through it. *)
Example constructor_argument_is_shared :
  let c := construct 0 in
  configField c (mutate 0 demoStore (SetField "baseUrl" "http://evil.example")) "baseUrl"
  = Some "http://evil.example".
Proof. vm_compute. reflexivity. Qed.

(** One call: [getConfig] returns a reference that was not in use, to an
    object with the properties of the client's configuration; whatever is
    done to that object, every other object of the store stays as it
    was. *)
Lemma getConfig_returns_fresh_copy
    (c : Client) (store : Store) (ms : list Mutation) :
  is_Some (store !! configRef c) ->
  let copy := (getConfig c store).1 in
  let store1 := (getConfig c store).2 in
  let store2 := mutateAll copy ms store1 in
  copy ≠ configRef c /\
  store !! copy = None /\
  store1 !! copy = store !! configRef c /\
  (forall l, l ≠ copy -> store2 !! l = store !! l) /\
  store2 !! configRef c = store !! configRef c /\
  (forall k, configField c store2 k = configField c store k) /\
  getProjectId c store2 = getProjectId c store /\
  (forall traceId, getTraceRequest c store2 traceId = getTraceRequest c store traceId).
Proof.
  intros [o Ho] copy store1 store2.
  assert (Hfresh : store !! copy = None) by apply allocate_fresh.
  assert (Hne : copy ≠ configRef c) by (intros E; rewrite E in Hfresh; congruence).
  assert (Hother : forall l, l ≠ copy -> store2 !! l = store !! l).
  { intros l Hl. subst store2. rewrite mutateAll_other by exact Hl.
    subst store1. unfold getConfig, allocate; simpl.
    rewrite lookup_insert_ne; [reflexivity|]. intros E. apply Hl. now rewrite <- E. }
  assert (Hsame : store2 !! configRef c = store !! configRef c).
  { apply Hother. intros E. now apply Hne. }
  assert (Hfield : forall k, configField c store2 k = configField c store k).
  { intros k. unfold configField. now rewrite Hsame. }
  repeat split; try assumption.
  - subst store1 copy. unfold getConfig, allocate; simpl.
    rewrite lookup_insert_eq, Ho. reflexivity.
  - apply Hfield.
  - intros traceId. unfold getTraceRequest. now rewrite !Hfield.
Qed.

Import Caller.

Lemma callerStep_untouched (c : Client) (store0 : Store) (s : CallerState) (op : CallerOp) :
  is_Some (store0 !! configRef c) ->
  untouched c store0 s -> untouched c store0 (callerStep c s op).
Proof.
  intros Hsome [Hcfg Hrefs]. destruct op as [|i m]; simpl.
  - assert (Hs : is_Some (store s !! configRef c)) by now rewrite Hcfg.
    destruct (getConfig_returns_fresh_copy c (store s) [] Hs)
      as (Hne & _ & _ & Hother & _).
    split; simpl.
    + rewrite <- Hcfg. apply (Hother (configRef c)). intros E. now apply Hne.
    + apply Forall_app. split; [exact Hrefs|]. now repeat constructor.
  - destruct (returned s !! i) as [l|] eqn:Hl; [|now split].
    split; simpl; [|exact Hrefs].
    rewrite mutate_other; [exact Hcfg|].
    intros E. rewrite List.Forall_forall in Hrefs.
    apply (Hrefs l); [|now symmetry].
    apply list_elem_of_In. eapply list_elem_of_lookup_2. exact Hl.
Qed.

Lemma callerRun_untouched (c : Client) (store0 : Store) (ops : list CallerOp)
    (s : CallerState) :
  is_Some (store0 !! configRef c) ->
  untouched c store0 s -> untouched c store0 (callerRun c ops s).
Proof.
  intros Hsome. unfold callerRun. revert s.
  induction ops as [|op ops IH]; intros s Hs; simpl; [exact Hs|].
  apply IH. now apply callerStep_untouched.
Qed.

(** C10: [getConfig] returns a new object with the properties of the
    client's configuration, never the client's own.  Whatever a caller
    does, in any order, with any number of calls of [getConfig] and of
    assignments to and deletions from the objects it was handed, the
    client's configuration stays as it was, and so do the project id and
    the requests the client builds from it. *)
Theorem getConfig_copies_are_independent
    (c : Client) (store0 : Store) (ops : list CallerOp) :
  is_Some (store0 !! configRef c) ->
  let final := callerRun c ops (mkCallerState store0 []) in
  store final !! configRef c = store0 !! configRef c /\
  Forall (fun l => l ≠ configRef c) (returned final) /\
  (getConfig c store0).1 ≠ configRef c /\
  (getConfig c store0).2 !! (getConfig c store0).1 = store0 !! configRef c /\
  (forall k, configField c (store final) k = configField c store0 k) /\
  getProjectId c (store final) = getProjectId c store0 /\
  (forall traceId,
     getTraceRequest c (store final) traceId = getTraceRequest c store0 traceId).
Proof.
  intros Hsome final.
  destruct (callerRun_untouched c store0 ops (mkCallerState store0 []) Hsome)
    as [Hcfg Hrefs]; [split; [reflexivity | constructor]|].
  destruct (getConfig_returns_fresh_copy c store0 [] Hsome) as (Hne & _ & Hcopy & _).
  assert (Hfield : forall k, configField c (store final) k = configField c store0 k).
  { intros k. unfold configField. subst final. now rewrite Hcfg. }
  repeat split; try assumption.
  - apply Hfield.
  - intros traceId. unfold getTraceRequest. now rewrite !Hfield.
Qed.

Lemma getConfig_copies_are_independent_witness :
  let c := construct 0 in
  let ops := [CallGetConfig; MutateReturned 0 (SetField "baseUrl" "http://evil.example");
              CallGetConfig; MutateReturned 1 (DeleteField "secretKey");
              MutateReturned 0 (SetField "publicKey" "pk-other")] in
  let final := callerRun c ops (mkCallerState demoStore []) in
  is_Some (demoStore !! configRef c) /\
  returned final = [1; 2]%nat /\
  (store final !! 1%nat ≫= fun o => o !! "baseUrl") = Some "http://evil.example" /\
  (store final !! 2%nat ≫= fun o => o !! "secretKey") = None /\
  store final !! configRef c = demoStore !! configRef c.
Proof.
  assert (H : is_Some (demoStore !! configRef (construct 0))).
  { exists demoObj. vm_compute. reflexivity. }
  split; [exact H|]. split; [vm_compute; reflexivity|].
  split; [vm_compute; reflexivity|]. split; [vm_compute; reflexivity|].
  exact (proj1 (getConfig_copies_are_independent (construct 0) demoStore
    [CallGetConfig; MutateReturned 0 (SetField "baseUrl" "http://evil.example");
     CallGetConfig; MutateReturned 1 (DeleteField "secretKey");
     MutateReturned 0 (SetField "publicKey" "pk-other")] H)).
Defined.

End ClientObjectFacts.

(* ===================================================================== *)
(** ** The dispatcher *)
(* ===================================================================== *)

Module ServerFacts.
Import Js Mcp Server.

(** [getCostAnalysis] returns a single text block and no error flag. *)
Lemma getCostAnalysis_envelope (Date_getTime : string -> option Z)
    (JSON_stringify : CostAnalysis.CostAnalysis -> string)
    (client : CostAnalysis.Client) (args : CostAnalysis.Args) :
  CostAnalysis.getCostAnalysis Date_getTime JSON_stringify client args
  = mkEnvelope
      [textBlock (JSON_stringify (CostAnalysis.costAnalysis Date_getTime client args))]
      None.
Proof. reflexivity. Qed.

(** C7, the claim as written, fails: a successful [get_cost_analysis]
    call comes back as [{ content }] alone; the envelope has no [isError]
    property, so it does not carry [isError: false]. *)
Lemma successful_call_carries_no_isError :
  let client := CostFixtures.stubClient (CostFixtures.dailyOf CostFixtures.scenarioA)
                  CostFixtures.noUsers in
  let e := callTool CostAnalysis.Args (costAnalysisCase client) "get_cost_analysis"
             (CostFixtures.january 20) in
  e = mkEnvelope [textBlock "{}"] None /\
  isError e = None /\
  isError e <> Some false.
Proof. repeat split. discriminate. Qed.

(** C7, amended: the call-tool handler always returns an envelope and
    never throws.  An unknown tool name, and any exception thrown by the
    parser or the handler of a known tool, give the envelope with
    [isError: true] and the text ["Error: "] followed by the message.
    Otherwise the envelope is the one the handler returned; the handlers in
    the sources return a single text block, with no [isError] property at
    all on success and with [isError: true] when they catch a failure
    themselves: [isError] is never [false]. *)
Theorem callTool_envelope (RawArgs : Type)
    (caseBody : string -> RawArgs -> Result Thrown Envelope)
    (name : string) (arguments : RawArgs) :
  let e := callTool RawArgs caseBody name arguments in
  (~ In name toolNames ->
   e = mkEnvelope [textBlock ("Error: Unknown tool: " ++ name)] (Some true)) /\
  (forall error, In name toolNames -> caseBody name arguments = Throw error ->
   e = mkEnvelope [textBlock ("Error: " ++ errorMessageOf error)] (Some true)) /\
  (forall envelope, In name toolNames -> caseBody name arguments = Return envelope ->
   e = envelope) /\
  ((In name toolNames /\ caseBody name arguments = Return e) \/
   (exists message, e = mkEnvelope [textBlock ("Error: " ++ message)] (Some true))) /\
  (forall Date_getTime JSON_stringify client args,
     isError (CostAnalysis.getCostAnalysis Date_getTime JSON_stringify client args) = None) /\
  (forall doing call,
     wrapCall doing call
     = match call with
       | Return json => mkEnvelope [textBlock json] None
       | Throw error =>
           mkEnvelope [textBlock ("Error " ++ doing ++ ": " ++ errorMessageOf error)]
                      (Some true)
       end).
Proof.
  intros e. subst e. unfold callTool, dispatch.
  destruct (existsb (String.eqb name) toolNames) eqn:Hex.
  - apply JsFacts.existsb_eqb_In in Hex.
    split; [tauto|]. split; [intros error _ ->; reflexivity|].
    split; [intros envelope _ ->; reflexivity|].
    split; [|split; [reflexivity | intros doing [json|error]; reflexivity]].
    destruct (caseBody name arguments) as [envelope|error].
    + left. tauto.
    + right. exists (errorMessageOf error). reflexivity.
  - assert (Hnot : ~ In name toolNames).
    { intros Hin. apply JsFacts.existsb_eqb_In in Hin. congruence. }
    split; [reflexivity|]. split; [tauto|]. split; [tauto|].
    split; [|split; [reflexivity | intros doing [json|error]; reflexivity]].
    right. exists ("Unknown tool: " ++ name). reflexivity.
Qed.

Lemma callTool_envelope_witness :
  let caseBody : string -> unit -> Result Thrown Envelope :=
    fun _ _ => Throw (ErrorObj "Failed to traces: API returned status 500") in
  ~ In "delete_everything" toolNames /\
  callTool unit caseBody "delete_everything" tt
  = mkEnvelope [textBlock "Error: Unknown tool: delete_everything"] (Some true) /\
  In "get_traces" toolNames /\
  callTool unit caseBody "get_traces" tt
  = mkEnvelope [textBlock "Error: Failed to traces: API returned status 500"] (Some true).
Proof.
  assert (Hnot : ~ In "delete_everything" toolNames).
  { intros Hin. apply JsFacts.existsb_eqb_In in Hin. vm_compute in Hin. discriminate. }
  assert (Hin : In "get_traces" toolNames).
  { apply JsFacts.existsb_eqb_In. reflexivity. }
  split; [exact Hnot|]. split; [|split; [exact Hin|]].
  - exact (proj1 (callTool_envelope unit
             (fun _ _ => Throw (ErrorObj "Failed to traces: API returned status 500"))
             "delete_everything" tt) Hnot).
  - exact (proj1 (proj2 (callTool_envelope unit
             (fun _ _ => Throw (ErrorObj "Failed to traces: API returned status 500"))
             "get_traces" tt))
           (ErrorObj "Failed to traces: API returned status 500") Hin eq_refl).
Defined.

End ServerFacts.

(* ===================================================================== *)
(** ** The mode gate *)
(* ===================================================================== *)

Module ModeGateFacts.
Import Js ModeGate.

Lemma step_keeps_state (s : ServerState) (r : Request) : fst (step s r) = s.
Proof. destruct r; reflexivity. Qed.

Lemma run_keeps_state (s : ServerState) (rs : list Request) : run s rs = s.
Proof.
  unfold run. induction rs as [|r rs IH] using rev_ind; [reflexivity|].
  rewrite fold_left_app. simpl. rewrite IH. apply step_keeps_state.
Qed.

Lemma expose_prefixed (d : Descriptor) :
  mutating d = true -> startsWith (visibleName (expose d)) writePrefix = true.
Proof.
  intros H. unfold expose. rewrite H. simpl visibleName.
  apply JsFacts.prefix_app.
Qed.

(** C9: in READONLY the list holds no mutating descriptor; in READWRITE it
    holds every descriptor of the catalog, in order, and the visible name
    of each mutating one starts with the prefix [write_]; the mode is
    READONLY unless the startup setting asks for read-write, and no
    sequence of requests changes it. *)
Theorem mode_visibility (catalog : list Descriptor) :
  (forall v, In v (listOperations READONLY catalog) -> mutating (descriptor v) = false) /\
  map descriptor (listOperations READWRITE catalog) = catalog /\
  (forall v, In v (listOperations READWRITE catalog) ->
     mutating (descriptor v) = true ->
     startsWith (visibleName v) writePrefix = true) /\
  getServerMode None = READONLY /\
  (forall setting, getServerMode setting = READWRITE -> setting = Some "readwrite") /\
  (forall setting rs, mode (run (start setting catalog) rs) = getServerMode setting) /\
  (forall s rs, mode (run s rs) = mode s) /\
  listOperations READONLY readTools = map expose readTools.
Proof.
  split; [|split; [|split; [|split; [|split; [|split; [|split]]]]]].
  - intros v Hin. unfold listOperations in Hin.
    apply in_map_iff in Hin as (d & <- & Hd).
    apply filter_In in Hd as [_ Hd]. simpl. now apply negb_true_iff in Hd.
  - unfold listOperations. rewrite map_map. simpl. apply map_id.
  - intros v Hin Hm. unfold listOperations in Hin.
    apply in_map_iff in Hin as (d & <- & _). now apply expose_prefixed.
  - reflexivity.
  - intros [s|]; simpl; [|discriminate].
    destruct (String.eqb_spec s "readwrite") as [->|_]; [reflexivity | discriminate].
  - intros setting rs. now rewrite run_keeps_state.
  - intros s rs. now rewrite run_keeps_state.
  - reflexivity.
Qed.

Lemma mode_visibility_witness :
  let catalog := [mkDescriptor "list_datasets" false; mkDescriptor "create_dataset" true] in
  listOperations READONLY catalog
  = [mkVisible "list_datasets" (mkDescriptor "list_datasets" false)] /\
  listOperations READWRITE catalog
  = [mkVisible "list_datasets" (mkDescriptor "list_datasets" false);
     mkVisible "write_create_dataset" (mkDescriptor "create_dataset" true)] /\
  startsWith "write_create_dataset" writePrefix = true.
Proof.
  split; [reflexivity|]. split; [reflexivity|].
  exact (proj1 (proj2 (proj2 (mode_visibility
           [mkDescriptor "list_datasets" false; mkDescriptor "create_dataset" true])))
         (mkVisible "write_create_dataset" (mkDescriptor "create_dataset" true))
         (or_intror (or_introl eq_refl)) eq_refl).
Defined.

End ModeGateFacts.

(* ===================================================================== *)
(** ** Further properties of the cost analysis *)
(* ===================================================================== *)

Module CostAnalysisMore.
Import Js Mcp CostAnalysis CostAnalysisSpec CostAnalysisOrder CostFixtures.
Import JsFacts CostAnalysisFacts AggregationFacts BreakdownFacts.

Section Dates.
Variable Date_getTime : string -> option Z.

Abbreviation valid := (dateValid Date_getTime).

Lemma dateLe_of_not_gt (a b : DayOut) :
  valid a -> valid b -> dateGt Date_getTime a b = false -> dateLe Date_getTime a b.
Proof.
  intros [x Hx] [y Hy]. unfold dateGt, dateLe. rewrite Hx, Hy.
  intros H. apply Z.ltb_ge in H. exact H.
Qed.

Lemma dateLe_of_gt (a b : DayOut) :
  dateGt Date_getTime a b = true -> dateLe Date_getTime b a.
Proof.
  unfold dateGt, dateLe.
  destruct (Date_getTime (dDate a)), (Date_getTime (dDate b)); try discriminate.
  intros H. apply Z.ltb_lt in H. lia.
Qed.

Lemma dateLe_trans (a b c : DayOut) :
  dateLe Date_getTime a b -> dateLe Date_getTime b c -> dateLe Date_getTime a c.
Proof.
  unfold dateLe.
  destruct (Date_getTime (dDate a)), (Date_getTime (dDate b)),
    (Date_getTime (dDate c)); try tauto. lia.
Qed.

(** Inserting a row with a readable date into rows that are in date order
    keeps them in date order. *)
Lemma sort_insert_dates (x : DayOut) (l : list DayOut) :
  valid x -> List.Forall valid l -> StronglySorted (dateLe Date_getTime) l ->
  StronglySorted (dateLe Date_getTime) (sort_insert (dateGt Date_getTime) x l).
Proof.
  intros Hx Hl Hs. induction l as [|y l IH]; simpl.
  - repeat constructor.
  - inversion Hl as [|? ? Hy Hl']; subst.
    apply StronglySorted_inv in Hs as [Hs Hall].
    destruct (dateGt Date_getTime x y) eqn:Hgt.
    + constructor; [now apply IH|].
      apply List.Forall_forall. intros z Hz.
      apply (Permutation_in _ (sort_insert_perm _ x l)) in Hz.
      destruct Hz as [<-|Hz]; [now apply dateLe_of_gt|].
      rewrite List.Forall_forall in Hall. now apply Hall.
    + assert (Hxy : dateLe Date_getTime x y) by now apply dateLe_of_not_gt.
      constructor; [now constructor|].
      constructor; [exact Hxy|].
      rewrite List.Forall_forall in Hall |- *. intros z Hz.
      eapply dateLe_trans; [exact Hxy | now apply Hall].
Qed.

Lemma Array_sort_dates (l : list DayOut) :
  List.Forall valid l ->
  StronglySorted (dateLe Date_getTime) (Array_sort (dateGt Date_getTime) l).
Proof.
  induction 1 as [|x l Hx Hl IH]; simpl; [constructor|].
  apply sort_insert_dates; [exact Hx | | exact IH].
  apply List.Forall_forall. intros z Hz. apply Array_sort_In in Hz.
  rewrite List.Forall_forall in Hl. now apply Hl.
Qed.

Lemma inWindow_dateInWindow (args : Args) (day : DayRow) :
  inWindow Date_getTime args day = true -> dateInWindow Date_getTime args (date day).
Proof.
  unfold inWindow, dateInWindow.
  destruct (Date_getTime (date day)) as [t|]; [|discriminate].
  destruct (Date_getTime (from args)) as [f|]; [|discriminate].
  destruct (Date_getTime (to args)) as [u|]; [|discriminate].
  intros H. apply andb_prop in H as [H1 H2].
  apply Z.leb_le in H1, H2. exists t, f, u. repeat split; trivial.
Qed.

End Dates.

(** The daily breakdown is not truncated: it has one row per in-window row
    of the daily source; the date of every row parses and lies in the
    window; and the rows are in ascending date order. *)
Theorem byDay_is_in_window_and_date_order
    (Date_getTime : string -> option Z) (client : Client) (args : Args)
    (days : list DayOut) :
  byDay (costAnalysis Date_getTime client args) = Some days ->
  length days = length (fetchDailyData Date_getTime client args) /\
  (forall d, In d days -> dateInWindow Date_getTime args (dDate d)) /\
  StronglySorted (dateLe Date_getTime) days.
Proof.
  intros Hdays.
  assert (E : days = Array_sort (dateGt Date_getTime)
                       (map dayOut (fetchDailyData Date_getTime client args))).
  { unfold costAnalysis in Hdays; simpl in Hdays.
    destruct (includeDailyBreakdown args); [|discriminate].
    injection Hdays as <-. reflexivity. }
  assert (Hwin : forall d, In d (map dayOut (fetchDailyData Date_getTime client args)) ->
                           dateInWindow Date_getTime args (dDate d)).
  { intros d Hd. apply in_map_iff in Hd as (day & <- & Hday).
    apply fetchDailyData_inWindow in Hday. now apply inWindow_dateInWindow. }
  split; [|split].
  - rewrite E, (Permutation_length (Array_sort_perm _ _)). apply length_map.
  - intros d Hd. apply Hwin. rewrite E in Hd. now apply Array_sort_In in Hd.
  - rewrite E. apply Array_sort_dates.
    apply List.Forall_forall. intros d Hd.
    destruct (Hwin d Hd) as (t & _ & _ & Ht & _). now exists t.
Qed.

Lemma byDay_is_in_window_and_date_order_witness :
  let c := stubClient (dailyOf unsortedDays) noUsers in
  let days := [mkDayOut "2024-01-01" 0.1 0 0; mkDayOut "2024-01-02" 0.2 0 0;
               mkDayOut "2024-01-03" 0.4 0 0] in
  byDay (costAnalysis IsoDate.getTime c (january 20)) = Some days /\
  StronglySorted (dateLe IsoDate.getTime) days.
Proof.
  assert (H : byDay (costAnalysis IsoDate.getTime
                       (stubClient (dailyOf unsortedDays) noUsers) (january 20))
              = Some [mkDayOut "2024-01-01" 0.1 0 0; mkDayOut "2024-01-02" 0.2 0 0;
                      mkDayOut "2024-01-03" 0.4 0 0])
    by (vm_compute; reflexivity).
  split; [exact H|].
  exact (proj2 (proj2 (byDay_is_in_window_and_date_order IsoDate.getTime
           (stubClient (dailyOf unsortedDays) noUsers) (january 20) _ H))).
Defined.

Lemma NoDup_slice0 {A : Type} (n : nat) (l : list A) :
  List.NoDup l -> List.NoDup (slice0 n l).
Proof.
  unfold slice0. intros H. revert n.
  induction H as [|x l Hx Hnd IH]; intros [|n]; simpl; try constructor.
  - intros Hin. apply Hx. now apply (slice0_In n l x).
  - apply IH.
Qed.

Lemma modelName_not_empty (u : UsageRow) : modelName u <> "".
Proof. unfold modelName. destruct (model u) as [[|c r]|]; discriminate. Qed.

Lemma byModel_is_truncated_aggregation_rows
    (Date_getTime : string -> option Z) (client : Client) (args : Args)
    (rows : list ModelRow) :
  byModel (costAnalysis Date_getTime client args) = Some rows ->
  let full := map (modelRowOf (resultTotalCost (costAnalysis Date_getTime client args)))
                (aggregationAsSpecified
                   (allUsage (fetchDailyData Date_getTime client args))) in
  rows = slice0 (limit args) (Array_sort (costGt mCost) full) /\
  (forall row, In row rows -> In row full).
Proof.
  intros Hrows full.
  assert (E : rows = slice0 (limit args) (Array_sort (costGt mCost) full)).
  { unfold costAnalysis in Hrows; simpl in Hrows.
    destruct (includeModelBreakdown args); [|discriminate].
    injection Hrows as <-. unfold computeByModel.
    now rewrite modelBreakdown_spec. }
  split; [exact E|]. intros row Hin. rewrite E in Hin.
  now apply slice0_In, Array_sort_In in Hin.
Qed.

Lemma byUser_row_percentage
    (Date_getTime : string -> option Z) (client : Client) (args : Args)
    (rows : list UserRow) (row : UserRow) :
  byUser (costAnalysis Date_getTime client args) = Some rows -> In row rows ->
  uPercentage row
  = percentage (resultTotalCost (costAnalysis Date_getTime client args)) (uCost row).
Proof.
  intros Hrows Hin. unfold costAnalysis in Hrows; simpl in Hrows.
  destruct (includeUserBreakdown args); [|discriminate].
  injection Hrows as <-. unfold computeByUser in Hin.
  destruct (getMetrics client (userQuery args)) as [resp|e]; [|destruct Hin].
  apply slice0_In, Array_sort_In in Hin.
  unfold userBreakdown in Hin. apply in_flat_map in Hin as (mrow & _ & Hin).
  destruct (userId mrow) as [[|c s]|]; simpl in Hin; try tauto.
  destruct Hin as [<-|[]]. reflexivity.
Qed.

(** The model and user breakdowns have at most [limit] rows; no model name
    occurs twice in the model breakdown, and no row has an empty model
    name or an empty user id. *)
Theorem breakdown_sizes_and_keys
    (Date_getTime : string -> option Z) (client : Client) (args : Args) :
  let r := costAnalysis Date_getTime client args in
  (forall rows, byModel r = Some rows ->
     (length rows <= limit args)%nat /\
     List.NoDup (map mModel rows) /\
     ~ In "" (map mModel rows)) /\
  (forall rows, byUser r = Some rows ->
     (length rows <= limit args)%nat /\
     ~ In "" (map uUserId rows)).
Proof.
  intros r. split.
  - intros rows Hrows.
    destruct (byModel_is_truncated_aggregation_rows Date_getTime client args rows Hrows)
      as [E Hsub].
    split; [|split].
    + rewrite E. unfold slice0. apply firstn_le_length.
    + rewrite E. unfold slice0. rewrite <- firstn_map. apply (NoDup_slice0 (limit args)).
      eapply Permutation_NoDup.
      * apply Permutation_map. symmetry. apply Array_sort_perm.
      * rewrite map_map. unfold aggregationAsSpecified. rewrite map_map. simpl.
        rewrite map_id. apply firstOccurrences_NoDup.
    + intros Hin. apply in_map_iff in Hin as (row & Hname & Hin).
      apply Hsub in Hin. apply in_map_iff in Hin as (e & <- & He).
      unfold aggregationAsSpecified in He. apply in_map_iff in He as (k & <- & Hk).
      simpl in Hname. subst k.
      apply (proj1 (firstOccurrences_In _ _)) in Hk.
      apply in_map_iff in Hk as (u & Hu & _). now apply (modelName_not_empty u).
  - intros rows Hrows. subst r. unfold costAnalysis in Hrows; simpl in Hrows.
    destruct (includeUserBreakdown args); [|discriminate].
    injection Hrows as <-. unfold computeByUser.
    destruct (getMetrics client (userQuery args)) as [resp|e]; [|split; [simpl; lia | tauto]].
    split; [unfold slice0; apply firstn_le_length|].
    intros Hin. apply in_map_iff in Hin as (row & Hid & Hin).
    apply slice0_In, Array_sort_In in Hin.
    unfold userBreakdown in Hin. apply in_flat_map in Hin as (mrow & _ & Hin).
    destruct (userId mrow) as [[|c s]|]; simpl in Hin; try tauto.
    destruct Hin as [<-|[]]. discriminate.
Qed.

Lemma breakdown_sizes_and_keys_witness :
  let r := costAnalysis IsoDate.getTime (stubClient (dailyOf sixModels) noUsers) (january 5) in
  let rows := [mkModelRow "m6" 6 10 0 28.57; mkModelRow "m5" 5 10 0 23.81;
               mkModelRow "m4" 4 10 0 19.05; mkModelRow "m3" 3 10 0 14.29;
               mkModelRow "m2" 2 10 0 9.52] in
  byModel r = Some rows /\ (length rows <= 5)%nat /\ List.NoDup (map mModel rows).
Proof.
  assert (H : byModel (costAnalysis IsoDate.getTime
                         (stubClient (dailyOf sixModels) noUsers) (january 5))
              = Some [mkModelRow "m6" 6 10 0 28.57; mkModelRow "m5" 5 10 0 23.81;
                      mkModelRow "m4" 4 10 0 19.05; mkModelRow "m3" 3 10 0 14.29;
                      mkModelRow "m2" 2 10 0 9.52])
    by (vm_compute; reflexivity).
  split; [exact H|].
  destruct (proj1 (breakdown_sizes_and_keys IsoDate.getTime
                     (stubClient (dailyOf sixModels) noUsers) (january 5)) _ H)
    as (Hlen & Hnd & _).
  exact (conj Hlen Hnd).
Defined.

(** When the daily source throws, or answers without a [data] array, the
    tool does not fail: the total is 0, the model and daily breakdowns are
    empty, every user row has percentage 0, and the envelope carries no
    error flag. *)
Theorem daily_source_failure_gives_zero_totals
    (Date_getTime : string -> option Z) (JSON_stringify : CostAnalysis -> string)
    (client : Client) (args : Args) :
  ((exists e, getDailyMetrics client (dailyTags args) = Throw e) \/
   (exists resp, getDailyMetrics client (dailyTags args) = Return resp /\
                 dailyRows resp = None)) ->
  let r := costAnalysis Date_getTime client args in
  resultTotalCost r = 0%float /\
  (includeModelBreakdown args = true -> byModel r = Some []) /\
  (includeDailyBreakdown args = true -> byDay r = Some []) /\
  (forall rows row, byUser r = Some rows -> In row rows -> uPercentage row = 0%float) /\
  isError (getCostAnalysis Date_getTime JSON_stringify client args) = None.
Proof.
  intros Hfail r.
  assert (Hrows : fetchDailyData Date_getTime client args = []).
  { unfold fetchDailyData. destruct Hfail as [[e ->]|(resp & -> & ->)]; reflexivity. }
  assert (Htotal : resultTotalCost r = 0%float).
  { subst r. unfold costAnalysis; simpl. now rewrite Hrows. }
  split; [exact Htotal|]. split; [|split; [|split]].
  - intros Hm. subst r. unfold costAnalysis; simpl. rewrite Hm, Hrows.
    unfold computeByModel, slice0. simpl. now rewrite firstn_nil.
  - intros Hd. subst r. unfold costAnalysis; simpl. rewrite Hd, Hrows. reflexivity.
  - intros rows row Hrows' Hin.
    rewrite (byUser_row_percentage Date_getTime client args rows row Hrows' Hin).
    fold r. rewrite Htotal. reflexivity.
  - reflexivity.
Qed.

Lemma daily_source_failure_gives_zero_totals_witness :
  let c := stubClient (Throw (ErrorObj "Daily Metrics API error: 503"))
             (Return (mkMetrics (Some [mkMetricsRow (Some "alice") (Some 2%float) None None]))) in
  let r := costAnalysis IsoDate.getTime c (january 20) in
  resultTotalCost r = 0%float /\
  byModel r = Some [] /\ byDay r = Some [] /\
  byUser r = Some [mkUserRow "alice" 2 0 0 0] /\
  isError (getCostAnalysis IsoDate.getTime noJson c (january 20)) = None.
Proof.
  destruct (daily_source_failure_gives_zero_totals IsoDate.getTime noJson
    (stubClient (Throw (ErrorObj "Daily Metrics API error: 503"))
       (Return (mkMetrics (Some [mkMetricsRow (Some "alice") (Some 2%float) None None]))))
    (january 20)
    (or_introl (ex_intro _ (ErrorObj "Daily Metrics API error: 503") eq_refl)))
    as (Ht & Hm & Hd & _ & He).
  split; [exact Ht|]. split; [exact (Hm eq_refl)|]. split; [exact (Hd eq_refl)|].
  split; [vm_compute; reflexivity | exact He].
Defined.

(** A window whose end lies before its start, or one of whose bounds does
    not parse, is not rejected: no row is in it, so the total is 0 and the
    model and daily breakdowns are empty. *)
Theorem empty_window_gives_empty_result
    (Date_getTime : string -> option Z) (client : Client) (args : Args) :
  (forall f u, Date_getTime (from args) = Some f -> Date_getTime (to args) = Some u ->
               (u < f)%Z) ->
  let r := costAnalysis Date_getTime client args in
  fetchDailyData Date_getTime client args = [] /\
  resultTotalCost r = 0%float /\
  (includeModelBreakdown args = true -> byModel r = Some []) /\
  (includeDailyBreakdown args = true -> byDay r = Some []).
Proof.
  intros Hwin r.
  assert (Hout : forall day, inWindow Date_getTime args day = false).
  { intros day. unfold inWindow.
    destruct (Date_getTime (date day)) as [t|]; [|reflexivity].
    destruct (Date_getTime (from args)) as [f|]; [|reflexivity].
    destruct (Date_getTime (to args)) as [u|]; [|reflexivity].
    specialize (Hwin f u eq_refl eq_refl).
    apply andb_false_iff. destruct (Z.leb_spec f t); [right | now left].
    apply Z.leb_gt. lia. }
  assert (Hrows : fetchDailyData Date_getTime client args = []).
  { unfold fetchDailyData.
    destruct (getDailyMetrics client (dailyTags args)) as [resp|e]; [|reflexivity].
    destruct (dailyRows resp) as [rows|]; [|reflexivity].
    induction rows as [|day rows IH]; simpl; [reflexivity|].
    now rewrite Hout. }
  split; [exact Hrows|]. subst r. unfold costAnalysis; simpl. rewrite Hrows.
  split; [reflexivity|]. split; intros ->; [|reflexivity].
  unfold computeByModel, slice0. simpl. now rewrite firstn_nil.
Qed.

Lemma empty_window_gives_empty_result_witness :
  let args := mkArgs "2024-02-01T00:00:00Z" "2024-01-01T00:00:00Z" None true true true 20 in
  let r := costAnalysis IsoDate.getTime (stubClient (dailyOf scenarioA) noUsers) args in
  resultTotalCost r = 0%float /\ byModel r = Some [] /\ byDay r = Some [].
Proof.
  destruct (empty_window_gives_empty_result IsoDate.getTime
              (stubClient (dailyOf scenarioA) noUsers)
              (mkArgs "2024-02-01T00:00:00Z" "2024-01-01T00:00:00Z" None true true true 20))
    as (_ & Ht & Hm & Hd).
  - intros f u Hf Hu. vm_compute in Hf, Hu.
    injection Hf as <-. injection Hu as <-. reflexivity.
  - exact (conj Ht (conj (Hm eq_refl) (Hd eq_refl))).
Defined.

Lemma truthy_not_NaN (x : float) : truthy x = true -> isNaN x = false.
Proof.
  unfold truthy. intros H. apply andb_prop in H as [_ H].
  now apply negb_true_iff in H.
Qed.

Lemma orElse_not_NaN (v : option float) (d : float) :
  isNaN d = false -> isNaN (orElse v d) = false.
Proof.
  intros Hd. unfold orElse. destruct v as [x|]; [|exact Hd].
  destruct (truthy x) eqn:Hx; [now apply truthy_not_NaN | exact Hd].
Qed.

Lemma isNaN_spec (x : float) : isNaN x = true <-> Prim2SF x = S754_nan.
Proof.
  unfold isNaN. rewrite FloatAxioms.eqb_spec. unfold SFeqb, SFcompare.
  destruct (Prim2SF x) as [[]|[]| |[] m e]; simpl;
    rewrite ?Z.compare_refl, ?Pos.compare_refl; simpl;
    rewrite ?Pos.compare_refl; simpl; split; congruence.
Qed.

Lemma nan_plus_l (x : float) : isNaN (nan + x) = true.
Proof. apply isNaN_spec. rewrite add_spec. reflexivity. Qed.

Lemma nan_plus_r (x : float) : isNaN (x + nan) = true.
Proof.
  apply isNaN_spec. rewrite add_spec. change (Prim2SF nan) with S754_nan.
  now destruct (Prim2SF x).
Qed.

Lemma truthy_cases (x : float) :
  truthy x = true ->
  (exists s, Prim2SF x = S754_infinity s) \/ (exists s m e, Prim2SF x = S754_finite s m e).
Proof.
  unfold truthy. intros H. apply andb_prop in H as [Hz Hn].
  apply negb_true_iff in Hz. rewrite FloatAxioms.eqb_spec in Hz.
  apply negb_true_iff in Hn.
  assert (Hn' : Prim2SF x <> S754_nan).
  { intros E. apply isNaN_spec in E. congruence. }
  change (Prim2SF 0) with (S754_zero false) in Hz.
  destruct (Prim2SF x) as [[]|s| |s m e]; try discriminate; try congruence; eauto.
Qed.

Lemma zero_plus (x : float) : truthy x = true -> (0 + x)%float = x.
Proof.
  intros Hx. apply Prim2SF_inj. rewrite add_spec.
  change (Prim2SF 0) with (S754_zero false).
  destruct (truthy_cases x Hx) as [[s ->] | (s & m & e & ->)]; reflexivity.
Qed.

Lemma plus_zero (x : float) : truthy x = true -> (x + 0)%float = x.
Proof.
  intros Hx. apply Prim2SF_inj. rewrite add_spec.
  change (Prim2SF 0) with (S754_zero false).
  destruct (truthy_cases x Hx) as [[s ->] | (s & m & e & ->)]; reflexivity.
Qed.

(** The tokens of a usage row: [totalUsage] when it is a number other than
    0 and NaN; otherwise the sum of [inputUsage] and [outputUsage] when
    that sum is such a number, and 0 when it is not.  In the sum a [null]
    operand counts as 0 and a missing one turns it into NaN: a row in which
    one of the two is missing counts 0 tokens whatever the other holds,
    and a row in which one is [null] counts the other.  The count is never
    NaN. *)
Theorem usageTokens_fallback (u : UsageRow) :
  (forall x, totalUsage u = Some x -> truthy x = true -> usageTokens u = x) /\
  (falsyNumber (totalUsage u) = true ->
   let sum := (toNumber (inputUsage u) + toNumber (outputUsage u))%float in
   usageTokens u = if truthy sum then sum else 0%float) /\
  (falsyNumber (totalUsage u) = true ->
   inputUsage u = Undefined \/ outputUsage u = Undefined -> usageTokens u = 0%float) /\
  (falsyNumber (totalUsage u) = true ->
   forall x, truthy x = true ->
     (inputUsage u = Null /\ outputUsage u = Num x) \/
     (inputUsage u = Num x /\ outputUsage u = Null) ->
     usageTokens u = x) /\
  isNaN (usageTokens u) = false.
Proof.
  assert (Hsum : falsyNumber (totalUsage u) = true ->
            usageTokens u
            = if truthy (toNumber (inputUsage u) + toNumber (outputUsage u))
              then (toNumber (inputUsage u) + toNumber (outputUsage u))%float
              else 0%float).
  { unfold usageTokens, falsyNumber, addFields. intros Hf.
    destruct (totalUsage u) as [x|]; simpl in *; [|reflexivity].
    apply negb_true_iff in Hf. now rewrite Hf. }
  split; [|split; [|split; [|split]]].
  - unfold usageTokens. intros x -> Hx. simpl. now rewrite Hx.
  - exact Hsum.
  - intros Hf Hmiss. rewrite (Hsum Hf).
    assert (E : isNaN (toNumber (inputUsage u) + toNumber (outputUsage u)) = true).
    { destruct Hmiss as [E | E]; rewrite E; simpl.
      - apply nan_plus_l.
      - apply nan_plus_r. }
    unfold truthy. rewrite E. now rewrite andb_false_r.
  - intros Hf x Hx Hnull. rewrite (Hsum Hf).
    destruct Hnull as [[-> ->] | [-> ->]]; simpl.
    + now rewrite (zero_plus x Hx), Hx.
    + now rewrite (plus_zero x Hx), Hx.
  - unfold usageTokens. apply orElse_not_NaN. apply orElse_not_NaN. reflexivity.
Qed.

Lemma usageTokens_fallback_witness :
  let oneMissing := mkUsage (Some "gpt-4") (Some 1%float) None Undefined (Num 120) None in
  let oneNull := mkUsage (Some "gpt-4") (Some 1%float) None Null (Num 120) None in
  usageTokens oneMissing = 0%float /\ usageTokens oneNull = 120%float.
Proof.
  split.
  - exact (proj1 (proj2 (proj2 (usageTokens_fallback
             (mkUsage (Some "gpt-4") (Some 1%float) None Undefined (Num 120) None))))
           eq_refl (or_introl eq_refl)).
  - exact (proj1 (proj2 (proj2 (proj2 (usageTokens_fallback
             (mkUsage (Some "gpt-4") (Some 1%float) None Null (Num 120) None)))))
           eq_refl 120%float eq_refl (or_introl (conj eq_refl eq_refl))).
Defined.

Lemma sumBy_all_zero {A : Type} (f : A -> float) (l : list A) :
  (forall x, In x l -> f x = 0%float) -> sumBy f l = 0%float.
Proof.
  unfold sumBy. induction l as [|x l IH] using rev_ind; intros H; [reflexivity|].
  rewrite fold_left_app. simpl. rewrite IH, H.
  - reflexivity.
  - apply in_or_app. right. now left.
  - intros y Hy. apply H. apply in_or_app. now left.
Qed.

(** The total is read from the [totalCost] of the daily rows, the model
    costs from their [usage] entries.  When no in-window row carries a
    usable [totalCost] (missing, 0 or NaN), the total is 0 and every
    percentage of the model and user breakdowns is 0, whatever the usage
    entries cost. *)
Theorem missing_day_totals_give_zero_percentages
    (Date_getTime : string -> option Z) (client : Client) (args : Args) :
  (forall day, In day (fetchDailyData Date_getTime client args) ->
               falsyNumber (totalCost day) = true) ->
  let r := costAnalysis Date_getTime client args in
  resultTotalCost r = 0%float /\
  (forall rows row, byModel r = Some rows -> In row rows -> mPercentage row = 0%float) /\
  (forall rows row, byUser r = Some rows -> In row rows -> uPercentage row = 0%float).
Proof.
  intros Hfalsy r.
  assert (Htotal : resultTotalCost r = 0%float).
  { subst r. unfold costAnalysis; simpl. unfold sumTotalCost.
    apply sumBy_all_zero. intros day Hday. specialize (Hfalsy day Hday).
    unfold falsyNumber in Hfalsy. unfold orZero.
    destruct (totalCost day) as [x|]; [|reflexivity].
    apply negb_true_iff in Hfalsy. now rewrite Hfalsy. }
  split; [exact Htotal|]. split.
  - intros rows row Hrows Hin.
    destruct (byModel_is_truncated_aggregation_rows Date_getTime client args rows Hrows)
      as [_ Hsub].
    apply Hsub in Hin. apply in_map_iff in Hin as (e & <- & _).
    unfold modelRowOf. cbn [mPercentage]. fold r. rewrite Htotal. reflexivity.
  - intros rows row Hrows Hin.
    rewrite (byUser_row_percentage Date_getTime client args rows row Hrows Hin).
    fold r. rewrite Htotal. reflexivity.
Qed.

Lemma missing_day_totals_give_zero_percentages_witness :
  let days := [mkDay "2024-01-05" None None (Some [usageOf "gpt-4" 3 100])] in
  let r := costAnalysis IsoDate.getTime (stubClient (dailyOf days) noUsers) (january 20) in
  resultTotalCost r = 0%float /\
  byModel r = Some [mkModelRow "gpt-4" 3 100 0 0].
Proof.
  split; [|vm_compute; reflexivity].
  apply (missing_day_totals_give_zero_percentages IsoDate.getTime
           (stubClient (dailyOf [mkDay "2024-01-05" None None (Some [usageOf "gpt-4" 3 100])])
              noUsers) (january 20)).
  intros day Hday. vm_compute in Hday. destruct Hday as [<-|[]]. reflexivity.
Defined.

End CostAnalysisMore.

(* ===================================================================== *)
(** ** A failure of the user source *)
(* ===================================================================== *)

Module IsolationFacts.
Import Js Mcp CostAnalysis CostAnalysisSpec CostAnalysisOrder CostFixtures.
Import JsFacts CostAnalysisFacts BreakdownFacts CostAnalysisMore.

Lemma fetchDailyData_sourceRows
    (Date_getTime : string -> option Z) (client : Client) (args : Args) :
  fetchDailyData Date_getTime client args
  = List.filter (inWindow Date_getTime args) (dailySourceRows client args).
Proof.
  unfold fetchDailyData, dailySourceRows.
  destruct (getDailyMetrics client (dailyTags args)) as [resp|e]; [|reflexivity].
  destruct (dailyRows resp); reflexivity.
Qed.

(** C2: when the user-breakdown source throws, the result is still built
    from the daily source.  With [days] the rows of that source whose date
    lies in the window: the total is the sum of their costs; the model
    breakdown is the aggregation of their usage entries by model, with the
    percentages of that total, sorted by cost and cut at [limit]; the daily
    breakdown holds one row per day, in date order.  All three are what a
    client with the same daily source and any other user source gets.  The
    user breakdown is empty, and the envelope is the serialised result
    without an error flag. *)
Theorem user_source_failure_is_isolated
    (Date_getTime : string -> option Z) (JSON_stringify : CostAnalysis -> string)
    (client other : Client) (args : Args) (e : Thrown) :
  getMetrics client (userQuery args) = Throw e ->
  getDailyMetrics other (dailyTags args) = getDailyMetrics client (dailyTags args) ->
  let r := costAnalysis Date_getTime client args in
  let r' := costAnalysis Date_getTime other args in
  let days := List.filter (inWindow Date_getTime args) (dailySourceRows client args) in
  let total := sumBy (fun day => orZero (totalCost day)) days in
  resultTotalCost r = total /\
  byModel r
  = (if includeModelBreakdown args
     then Some (slice0 (limit args)
                  (Array_sort (costGt mCost)
                     (map (modelRowOf total) (aggregationAsSpecified (allUsage days)))))
     else None) /\
  byDay r
  = (if includeDailyBreakdown args
     then Some (Array_sort (dateGt Date_getTime) (map dayOut days))
     else None) /\
  (forall rows, byDay r = Some rows ->
     Permutation rows (map dayOut days) /\
     StronglySorted (dateLe Date_getTime) rows) /\
  resultTotalCost r = resultTotalCost r' /\
  byModel r = byModel r' /\
  byDay r = byDay r' /\
  byUser r = (if includeUserBreakdown args then Some [] else None) /\
  getCostAnalysis Date_getTime JSON_stringify client args
  = mkEnvelope [textBlock (JSON_stringify r)] None /\
  isError (getCostAnalysis Date_getTime JSON_stringify client args) <> Some true.
Proof.
  intros Hthrow Hdaily r r' days total.
  assert (Hrows : fetchDailyData Date_getTime client args = days)
    by apply fetchDailyData_sourceRows.
  assert (Hother : fetchDailyData Date_getTime other args = days).
  { rewrite <- Hrows. unfold fetchDailyData. now rewrite Hdaily. }
  assert (Hday : byDay r
                 = if includeDailyBreakdown args
                   then Some (Array_sort (dateGt Date_getTime) (map dayOut days))
                   else None).
  { subst r. unfold costAnalysis. simpl. now rewrite Hrows. }
  split; [|split; [|split; [|split; [|split; [|split; [|split; [|split; [|split]]]]]]]].
  - subst r. unfold costAnalysis. simpl. now rewrite Hrows.
  - subst r. unfold costAnalysis. simpl. rewrite Hrows.
    unfold computeByModel. now rewrite modelBreakdown_spec.
  - exact Hday.
  - intros rows Hrows'. rewrite Hday in Hrows'.
    destruct (includeDailyBreakdown args); [|discriminate].
    injection Hrows' as <-. split; [apply Array_sort_perm|].
    apply Array_sort_dates. apply List.Forall_forall. intros d Hd.
    apply in_map_iff in Hd as (day & <- & Hin). subst days.
    apply filter_In in Hin as [_ Hin]. apply inWindow_dateInWindow in Hin.
    destruct Hin as (t & _ & _ & Ht & _). now exists t.
  - subst r r'. unfold costAnalysis. simpl. now rewrite Hrows, Hother.
  - subst r r'. unfold costAnalysis. simpl. now rewrite Hrows, Hother.
  - subst r r'. unfold costAnalysis. simpl. now rewrite Hrows, Hother.
  - subst r. unfold costAnalysis. simpl. unfold computeByUser. now rewrite Hthrow.
  - reflexivity.
  - discriminate.
Qed.

Lemma user_source_failure_is_isolated_witness :
  let failing := stubClient (dailyOf mixedDays) (Throw (ErrorObj "Metrics API error: 500")) in
  let r := costAnalysis IsoDate.getTime failing (january 20) in
  getMetrics failing (userQuery (january 20)) = Throw (ErrorObj "Metrics API error: 500") /\
  resultTotalCost r = 3.5%float /\
  byModel r = Some [mkModelRow "gpt-4" 2.75 500 0 78.57; mkModelRow "gpt-3.5" 0.75 150 0 21.43] /\
  byDay r = Some [mkDayOut "2024-01-01" 1 400 2; mkDayOut "2024-01-02" 2.5 250 4] /\
  byUser r = Some [] /\
  isError (getCostAnalysis IsoDate.getTime noJson failing (january 20)) = None.
Proof.
  pose proof (user_source_failure_is_isolated IsoDate.getTime noJson
    (stubClient (dailyOf mixedDays) (Throw (ErrorObj "Metrics API error: 500")))
    (stubClient (dailyOf mixedDays) noUsers) (january 20)
    (ErrorObj "Metrics API error: 500") eq_refl eq_refl)
    as (Ht & Hm & Hd & _ & _ & _ & _ & Hu & He & _).
  cbv zeta. split; [reflexivity|].
  split; [etransitivity; [exact Ht | vm_compute; reflexivity]|].
  split; [etransitivity; [exact Hm | vm_compute; reflexivity]|].
  split; [etransitivity; [exact Hd | vm_compute; reflexivity]|].
  split; [exact Hu|].
  now rewrite He.
Defined.

End IsolationFacts.

(* ===================================================================== *)
(** ** Further properties of the configuration *)
(* ===================================================================== *)

Module ConfigMore.
Import Js Config.

Lemma substring0_length (n : nat) (s : string) : (String.length (substring0 n s) <= n)%nat.
Proof.
  revert s. induction n as [|n IH]; intros [|c r]; simpl; try lia.
  specialize (IH r). lia.
Qed.

Lemma orString_not_empty (s : option string) (d : string) :
  d <> "" -> orString s d <> "".
Proof. intros Hd. destruct s as [[|c r]|]; simpl; [exact Hd | discriminate | exact Hd]. Qed.

Lemma orString_length (s : option string) (d : string) (n : nat) :
  (String.length d <= n)%nat ->
  (forall x, s = Some x -> (String.length x <= n)%nat) ->
  (String.length (orString s d) <= n)%nat.
Proof.
  intros Hd Hs. destruct s as [[|c r]|]; simpl; try exact Hd.
  now apply (Hs (String c r)).
Qed.

(** The project id is never empty and has at most 8 characters, whatever
    the public key looks like. *)
Lemma projectIdOf_bounds (publicKey : string) :
  projectIdOf publicKey <> "" /\ (String.length (projectIdOf publicKey) <= 8)%nat.
Proof.
  unfold projectIdOf. split.
  - now apply orString_not_empty.
  - apply orString_length; [simpl; lia|].
    intros x Hx. destruct (nth_error (split "-" publicKey) 2) as [piece|]; [|discriminate].
    replace x with (substring0 8 piece) by (unfold option_map in Hx; congruence).
    apply substring0_length.
Qed.

(** Every configuration that [getProjectConfig] returns has a base URL that
    starts with [https://] and is either the configured one or the default,
    holds the two keys of the environment, both non-empty, and has a
    project id of 1 to 8 characters. *)
Theorem returned_config_is_well_formed (env : Env) (cfg : LangfuseProjectConfig) :
  getProjectConfig env = Return cfg ->
  startsWith (baseUrl cfg) "https://" = true /\
  (LANGFUSE_BASEURL env = Some (baseUrl cfg) \/ baseUrl cfg = defaultBaseUrl) /\
  LANGFUSE_PUBLIC_KEY env = Some (publicKey cfg) /\
  LANGFUSE_SECRET_KEY env = Some (secretKey cfg) /\
  publicKey cfg <> "" /\ secretKey cfg <> "" /\
  id cfg = projectIdOf (publicKey cfg) /\
  id cfg <> "" /\ (String.length (id cfg) <= 8)%nat.
Proof.
  unfold getProjectConfig.
  destruct env as [[[|c1 r1]|] [[|c2 r2]|] bu]; simpl; try discriminate.
  destruct (startsWith (orString bu defaultBaseUrl) "https://") eqn:Hs; simpl;
    [|discriminate].
  intros H. injection H as <-. simpl.
  destruct (projectIdOf_bounds (String c1 r1)) as [Hne Hlen].
  repeat split; try assumption; try discriminate.
  destruct bu as [[|c r]|]; simpl; auto.
Qed.

Lemma returned_config_is_well_formed_witness :
  let env := mkEnv (Some "pk-lf-1234567890abcdef") (Some "sk-lf-secret")
                   (Some "https://us.cloud.langfuse.com") in
  getProjectConfig env
  = Return (mkConfig "12345678" "https://us.cloud.langfuse.com"
              "pk-lf-1234567890abcdef" "sk-lf-secret") /\
  startsWith "https://us.cloud.langfuse.com" "https://" = true.
Proof.
  split; [reflexivity|].
  exact (proj1 (returned_config_is_well_formed
           (mkEnv (Some "pk-lf-1234567890abcdef") (Some "sk-lf-secret")
                  (Some "https://us.cloud.langfuse.com"))
           (mkConfig "12345678" "https://us.cloud.langfuse.com"
              "pk-lf-1234567890abcdef" "sk-lf-secret") eq_refl)).
Defined.

End ConfigMore.

(* ===================================================================== *)
(** ** What the server log can show *)
(* ===================================================================== *)

Module LogFacts.
Import Js Url Config Transport LangfuseClientRevised LogShape TransportFixtures.
Import JsFacts SanitizeFacts.

Lemma sanitizedValue_idem (k v : string) :
  sanitizedValue k (sanitizedValue k v) = sanitizedValue k v.
Proof. unfold sanitizedValue. destruct (existsb (String.eqb k) allowedParams); reflexivity. Qed.

(** The loop sees of each parameter only its name and its sanitised
    value. *)
Lemma sanitizeParams_factors (params : list (string * string)) :
  sanitizeParams params = sanitizeParams (sanitizedAsSpecified params).
Proof.
  unfold sanitizeParams, sanitizedAsSpecified. generalize (@nil (string * string)) as acc.
  induction params as [|p params IH]; intros acc; simpl; [reflexivity|].
  rewrite sanitizedValue_idem. apply IH.
Qed.

Lemma alike_sanitized (l1 l2 : list (string * string)) :
  Forall2 alike l1 l2 -> sanitizedAsSpecified l1 = sanitizedAsSpecified l2.
Proof.
  induction 1 as [|p q l1 l2 [Hk Hv] _ IH]; simpl; [reflexivity|].
  rewrite IH. f_equal. rewrite <- Hk. f_equal. unfold sanitizedValue.
  destruct (existsb (String.eqb (fst p)) allowedParams); [now apply Hv | reflexivity].
Qed.

Lemma sanitized_url_hides_other_values_aux
    (URL_parse : string -> option URL) (url1 url2 : string) (u1 u2 : URL) :
  URL_parse url1 = Some u1 -> URL_parse url2 = Some u2 ->
  pathname u1 = pathname u2 ->
  Forall2 alike (searchParams u1) (searchParams u2) ->
  sanitizeUrlForLogging URL_parse url1 = sanitizeUrlForLogging URL_parse url2.
Proof.
  intros H1 H2 Hpath Halike. unfold sanitizeUrlForLogging. rewrite H1, H2, Hpath.
  rewrite (sanitizeParams_factors (searchParams u1)),
          (sanitizeParams_factors (searchParams u2)),
          (alike_sanitized _ _ Halike).
  reflexivity.
Qed.

(** The sanitised form of a URL depends only on its path, on the names of
    its parameters and on the values of those on the allow-list: two URLs
    that differ in other values only are logged as the same text. *)
Theorem sanitized_url_hides_other_values
    (URL_parse : string -> option URL) (url1 url2 : string) (u1 u2 : URL) :
  URL_parse url1 = Some u1 -> URL_parse url2 = Some u2 ->
  pathname u1 = pathname u2 ->
  Forall2 alike (searchParams u1) (searchParams u2) ->
  sanitizeUrlForLogging URL_parse url1 = sanitizeUrlForLogging URL_parse url2.
Proof. exact (sanitized_url_hides_other_values_aux URL_parse url1 url2 u1 u2). Qed.

Lemma sanitized_url_hides_other_values_witness :
  sanitizeUrlForLogging parseSimple
    "https://cloud.langfuse.com/api/public/traces?userId=alice&limit=10&name=checkout"
  = sanitizeUrlForLogging parseSimple
    "https://cloud.langfuse.com/api/public/traces?userId=bob&limit=10&name=login".
Proof.
  apply (sanitized_url_hides_other_values parseSimple
           "https://cloud.langfuse.com/api/public/traces?userId=alice&limit=10&name=checkout"
           "https://cloud.langfuse.com/api/public/traces?userId=bob&limit=10&name=login"
           (mkURL "/api/public/traces" [("userId", "alice"); ("limit", "10"); ("name", "checkout")])
           (mkURL "/api/public/traces" [("userId", "bob"); ("limit", "10"); ("name", "login")])
           eq_refl eq_refl eq_refl).
  repeat constructor; simpl; discriminate.
Defined.

(** *** The query of [listTraces] *)

Lemma keys_appendNat (k : string) (v : option nat) (q : list (string * string)) :
  map fst (appendNat k v q)
  = (map fst q ++ match v with Some (S _) => [k] | _ => [] end)%list.
Proof.
  unfold appendNat, params_append. destruct v as [[|n]|]; rewrite ?map_app, ?app_nil_r; reflexivity.
Qed.

Lemma keys_appendString (k : string) (v : option string) (q : list (string * string)) :
  map fst (appendString k v q)
  = (map fst q ++ if falsyString v then [] else [k])%list.
Proof.
  unfold appendString, params_append.
  destruct v as [[|c r]|]; simpl; rewrite ?map_app, ?app_nil_r; reflexivity.
Qed.

Lemma appendTags_app (ts : list string) (q : list (string * string)) :
  fold_left (fun q tag => params_append "tags" tag q) ts q
  = (q ++ map (fun tag => ("tags", tag)) ts)%list.
Proof.
  revert q. induction ts as [|t ts IH]; intros q; simpl.
  - now rewrite app_nil_r.
  - rewrite IH. unfold params_append. now rewrite <- app_assoc.
Qed.

Lemma appendOrderBy_cases (params : TraceParams) (q : list (string * string)) :
  appendOrderBy params q
  = if sendsOrderBy params
    then (q ++ [("order_by",
                 (default "" (orderBy params) ++ " " ++ sentDirection params)%string)])%list
    else q.
Proof.
  unfold appendOrderBy, sendsOrderBy, sentDirection, params_append.
  destruct (orderBy params) as [[|c r]|]; reflexivity.
Qed.

(** [listTraces] forwards a sort order only for the fields [timestamp],
    [name] and [totalCost]; any other [orderBy] is dropped without notice,
    and the request is the one without it.  The direction sent is [ASC]
    when [orderDirection] is ["asc"] and [DESC] in every other case. *)
Theorem listTraces_drops_unsupported_orderBy (params : TraceParams) :
  (sendsOrderBy params = false ->
   ~ In "order_by" (map fst (tracesQuery params)) /\
   forall (config : LangfuseProjectConfig) (other : option string),
     sendsOrderBy (mkTraceParams (page params) (limit params) (name params)
                     (userId params) (tags params) (filter params) other
                     (orderDirection params) (fromTimestamp params) (toTimestamp params))
     = false ->
     tracesUrl config params
     = tracesUrl config
         (mkTraceParams (page params) (limit params) (name params) (userId params)
            (tags params) (filter params) other (orderDirection params)
            (fromTimestamp params) (toTimestamp params))) /\
  (sendsOrderBy params = true ->
   exists field,
     orderBy params = Some field /\ In field supportedOrderBy /\
     In ("order_by", field ++ " " ++ sentDirection params) (tracesQuery params)) /\
  (sentDirection params = "ASC" \/ sentDirection params = "DESC") /\
  (sentDirection params = "ASC" <-> orderDirection params = Some "asc").
Proof.
  split; [|split; [|split]].
  - intros Hno. split.
    + unfold tracesQuery.
      rewrite keys_appendString. unfold appendTags.
      destruct (tags params) as [ts|].
      * rewrite appendTags_app, map_app, !keys_appendString, appendOrderBy_cases, Hno,
          !keys_appendString, !keys_appendNat, map_map. simpl.
        rewrite !in_app_iff, in_map_iff.
        destruct (page params) as [[|?]|], (limit params) as [[|?]|],
          (falsyString (name params)), (falsyString (userId params)),
          (falsyString (fromTimestamp params)), (falsyString (toTimestamp params)),
          (falsyString (filter params)); simpl;
          intuition (try discriminate); destruct H as (? & ? & ?); discriminate.
      * rewrite !keys_appendString, appendOrderBy_cases, Hno,
          !keys_appendString, !keys_appendNat. simpl.
        rewrite !in_app_iff.
        destruct (page params) as [[|?]|], (limit params) as [[|?]|],
          (falsyString (name params)), (falsyString (userId params)),
          (falsyString (fromTimestamp params)), (falsyString (toTimestamp params)),
          (falsyString (filter params)); simpl; intuition discriminate.
    + intros config other Hother. unfold tracesUrl, tracesQuery. simpl.
      rewrite !appendOrderBy_cases, Hno, Hother. reflexivity.
  - intros Hyes. unfold sendsOrderBy in Hyes.
    destruct (orderBy params) as [[|c r]|] eqn:Hob; try discriminate.
    exists (String c r). split; [reflexivity|]. split.
    + now apply existsb_eqb_In.
    + unfold tracesQuery.
      assert (Hin : In ("order_by", String c r ++ " " ++ sentDirection params)
                       (appendOrderBy params
                          (appendString "userId" (userId params)
                             (appendString "name" (name params)
                                (appendNat "limit" (limit params)
                                   (appendNat "page" (page params) [])))))).
      { rewrite appendOrderBy_cases. unfold sendsOrderBy. rewrite Hob, Hyes. simpl default.
        apply in_or_app. right. now left. }
      assert (Hs : forall k v q x, In x q -> In x (appendString k v q)).
      { intros k v q x Hx. unfold appendString, params_append.
        destruct v as [[|? ?]|]; trivial. apply in_or_app. now left. }
      apply Hs. unfold appendTags. destruct (tags params) as [ts|].
      * rewrite appendTags_app. apply in_or_app. left. now apply Hs, Hs.
      * now apply Hs, Hs.
  - unfold sentDirection. destruct (orderDirection params) as [d|]; [|now right].
    destruct (String.eqb d "asc"); [now left | now right].
  - unfold sentDirection. destruct (orderDirection params) as [d|].
    + destruct (String.eqb_spec d "asc") as [->|Hne]; split; try reflexivity;
        try discriminate. intros H. congruence.
    + split; discriminate.
Qed.

Lemma listTraces_drops_unsupported_orderBy_witness :
  let params := mkTraceParams None (Some 10) None None None None (Some "totalTokens")
                  (Some "asc") None None in
  sendsOrderBy params = false /\
  tracesUrl demoConfig params = "https://cloud.langfuse.com/api/public/traces?limit=10" /\
  ~ In "order_by" (map fst (tracesQuery params)).
Proof.
  split; [reflexivity|]. split; [reflexivity|].
  exact (proj1 (proj1 (listTraces_drops_unsupported_orderBy
           (mkTraceParams None (Some 10) None None None None (Some "totalTokens")
              (Some "asc") None None)) eq_refl)).
Defined.

(** *** The log line of a failed [listTraces] *)

Lemma alike_refl (p : string * string) : alike p p.
Proof. split; reflexivity. Qed.

Lemma alike_redacted (k v1 v2 : string) :
  existsb (String.eqb k) allowedParams = false -> alike (k, v1) (k, v2).
Proof.
  intros Hk. split; [reflexivity|].
  change (fst (k, v1)) with k. intros H. rewrite Hk in H. discriminate.
Qed.

Lemma alike_appendString (k : string) (v1 v2 : option string)
    (q1 q2 : list (string * string)) :
  existsb (String.eqb k) allowedParams = false ->
  falsyString v1 = falsyString v2 ->
  Forall2 alike q1 q2 ->
  Forall2 alike (appendString k v1 q1) (appendString k v2 q2).
Proof.
  intros Hk Hv Hq. unfold appendString, params_append.
  destruct v1 as [[|c1 r1]|], v2 as [[|c2 r2]|]; simpl in Hv; try discriminate;
    try exact Hq.
  apply Forall2_app; [exact Hq|]. constructor; [|constructor].
  now apply alike_redacted.
Qed.

Lemma alike_appendNat (k : string) (v : option nat) (q1 q2 : list (string * string)) :
  Forall2 alike q1 q2 -> Forall2 alike (appendNat k v q1) (appendNat k v q2).
Proof.
  intros Hq. unfold appendNat, params_append. destruct v as [[|n]|]; try exact Hq.
  apply Forall2_app; [exact Hq|]. constructor; [apply alike_refl | constructor].
Qed.

Lemma alike_appendOrderBy (p1 p2 : TraceParams) (q1 q2 : list (string * string)) :
  sendsOrderBy p1 = sendsOrderBy p2 ->
  Forall2 alike q1 q2 ->
  Forall2 alike (appendOrderBy p1 q1) (appendOrderBy p2 q2).
Proof.
  intros Hs Hq. rewrite !appendOrderBy_cases, <- Hs.
  destruct (sendsOrderBy p1); [|exact Hq].
  apply Forall2_app; [exact Hq|]. constructor; [|constructor].
  now apply alike_redacted.
Qed.

Lemma alike_appendTags (p1 p2 : TraceParams) (q1 q2 : list (string * string)) :
  option_map (@length string) (tags p1) = option_map (@length string) (tags p2) ->
  Forall2 alike q1 q2 ->
  Forall2 alike (appendTags p1 q1) (appendTags p2 q2).
Proof.
  intros Hlen Hq. unfold appendTags.
  destruct (tags p1) as [ts1|], (tags p2) as [ts2|]; simpl in Hlen; try discriminate;
    [|exact Hq].
  injection Hlen as Hlen. rewrite !appendTags_app. apply Forall2_app; [exact Hq|].
  revert ts2 Hlen. induction ts1 as [|t1 ts1 IH]; intros [|t2 ts2] Hlen; simpl in *;
    try discriminate; constructor.
  - now apply alike_redacted.
  - apply IH. congruence.
Qed.

(** Calls of the same shape send queries the sanitiser cannot tell
    apart. *)
Lemma sameShape_alike (p1 p2 : TraceParams) :
  sameShape p1 p2 -> Forall2 alike (tracesQuery p1) (tracesQuery p2).
Proof.
  intros (Hpage & Hlimit & Hname & Huser & Hord & Hfrom & Hto & Htags & Hfilter).
  unfold tracesQuery. rewrite Hpage, Hlimit.
  apply alike_appendString; [reflexivity | exact Hfilter |].
  apply alike_appendTags; [exact Htags|].
  apply alike_appendString; [reflexivity | exact Hto |].
  apply alike_appendString; [reflexivity | exact Hfrom |].
  apply alike_appendOrderBy; [exact Hord|].
  apply alike_appendString; [reflexivity | exact Huser |].
  apply alike_appendString; [reflexivity | exact Hname |].
  apply alike_appendNat, alike_appendNat. constructor.
Qed.

Lemma tracesUrl_not_empty (config : LangfuseProjectConfig) (params : TraceParams) :
  exists c r, tracesUrl config params = String c r.
Proof.
  unfold tracesUrl. destruct (baseUrl config) as [|c r]; simpl; eauto.
Qed.

(** What a failed [listTraces] call writes to the server log depends, apart
    from the status line, only on [page], [limit] and the shape of the
    call: two calls that differ in the values of [name], [userId], the
    sort order, the timestamps, the tags or the filter, and in the bodies
    of the responses, write the same single line.  (The parser is assumed
    to read each URL back as [listTraces] built it.) *)
Theorem failed_listTraces_log_shows_only_shape
    (URL_parse : string -> option URL) (config : LangfuseProjectConfig)
    (fetch1 fetch2 : Request -> Result Thrown Response)
    (p1 p2 : TraceParams) (r1 r2 : Response) (path : string) :
  sameShape p1 p2 ->
  URL_parse (tracesUrl config p1) = Some (mkURL path (tracesQuery p1)) ->
  URL_parse (tracesUrl config p2) = Some (mkURL path (tracesQuery p2)) ->
  fetch1 (mkRequest (tracesUrl config p1) (authOf config)) = Return r1 ->
  fetch2 (mkRequest (tracesUrl config p2) (authOf config)) = Return r2 ->
  ok r1 = false -> status r2 = status r1 -> statusText r2 = statusText r1 ->
  logged (listTraces URL_parse config fetch1 p1)
  = logged (listTraces URL_parse config fetch2 p2) /\
  length (logged (listTraces URL_parse config fetch1 p1)) = 1%nat.
Proof.
  intros Hshape Hu1 Hu2 Hf1 Hf2 Hok Hst Htxt.
  assert (Hok2 : ok r2 = false) by (unfold ok in *; now rewrite Hst).
  assert (Hsan : sanitizeUrlForLogging URL_parse (tracesUrl config p1)
                 = sanitizeUrlForLogging URL_parse (tracesUrl config p2)).
  { eapply sanitized_url_hides_other_values_aux; eauto. now apply sameShape_alike. }
  unfold listTraces. rewrite Hf1, Hf2, Hok, Hok2. simpl negb. cbv iota.
  unfold handleApiError.
  destruct (tracesUrl_not_empty config p1) as (c1 & s1 & E1).
  destruct (tracesUrl_not_empty config p2) as (c2 & s2 & E2).
  rewrite E1, E2 in *. simpl logged. rewrite Hsan, Hst, Htxt. split; reflexivity.
Qed.

Lemma failed_listTraces_log_shows_only_shape_witness :
  logged (listTraces parseSimple demoConfig (failWith "no such user alice") (byUser "alice"))
  = logged (listTraces parseSimple demoConfig (failWith "no such user bob") (byUser "bob")) /\
  logged (listTraces parseSimple demoConfig (failWith "no such user alice") (byUser "alice"))
  = ["Traces API error: 500 Internal Server Error. URL: "
     ++ "/api/public/traces?limit=10&userId=%5BREDACTED%5D"
     ++ ". Response: [REDACTED for security]"].
Proof.
  split; [|reflexivity].
  refine (proj1 (failed_listTraces_log_shows_only_shape parseSimple demoConfig
           (failWith "no such user alice") (failWith "no such user bob")
           (byUser "alice") (byUser "bob")
           (mkResponse 500 "Internal Server Error" (Return "no such user alice")
              (Return "no such user alice"))
           (mkResponse 500 "Internal Server Error" (Return "no such user bob")
              (Return "no such user bob"))
           "/api/public/traces" _ eq_refl eq_refl eq_refl eq_refl eq_refl eq_refl eq_refl)).
  repeat split.
Defined.

End LogFacts.

(* ===================================================================== *)
(** ** The sanitised URL, in general and for the URLs [listTraces] logs *)
(* ===================================================================== *)

Module SanitizeTraceUrls.
Import Js Url Config Transport LangfuseClientRevised LogShape TransportFixtures.
Import JsFacts SanitizeFacts LogFacts.













End SanitizeTraceUrls.

(* ===================================================================== *)
(** ** Tools over the revised client *)
(* ===================================================================== *)

Module ToolFacts.
Import Js Mcp Url Config Transport LangfuseClientRevised RevisedMethods TransportFixtures.

(** What a tool returns, case by case: the serialised data, with no error
    flag, when the backend answers 2xx with a readable body; an error
    envelope that names the tool, the operation and the status code, and
    nothing of the response, when it answers anything else (one line goes
    to the server log); an error envelope with the message of the exception
    when [fetch] or the reading of the body throws.  The tool itself never
    throws, and never sets [isError] to [false]. *)
Theorem tool_outcomes (URL_parse : string -> option URL) (JSON_stringify : string -> string)
    (config : LangfuseProjectConfig) (fetch : HttpRequest -> Result Thrown Response)
    (call : ToolCall) :
  let envelope := runTool URL_parse JSON_stringify config fetch call in
  let failure message :=
    mkEnvelope [textBlock ("Error " ++ toolDoing call ++ ": " ++ message)] (Some true) in
  (forall r data, fetch (methodRequest config call) = Return r -> ok r = true ->
     responseJson r = Return data ->
     envelope = mkEnvelope [textBlock (JSON_stringify data)] None) /\
  (forall r, fetch (methodRequest config call) = Return r -> ok r = false ->
     envelope = failure ("Failed to " ++ toLowerCase (methodOperation call)
                         ++ ": API returned status " ++ showNat (status r)) /\
     logged (clientMethod URL_parse config fetch call)
     = [methodOperation call ++ " API error: " ++ showNat (status r) ++ " "
        ++ statusText r ++ ". Response: [REDACTED for security]"]) /\
  (forall e, fetch (methodRequest config call) = Throw e ->
     envelope = failure (errorMessageOf e)) /\
  (forall r e, fetch (methodRequest config call) = Return r -> ok r = true ->
     responseJson r = Throw e -> envelope = failure (errorMessageOf e)) /\
  isError envelope <> Some false.
Proof.
  intros envelope failure. subst envelope failure. unfold runTool, clientMethod.
  split; [|split; [|split; [|split]]].
  - intros r data -> Hok Hjson. rewrite Hok. simpl. now rewrite Hjson.
  - intros r -> Hok. rewrite Hok. split; reflexivity.
  - intros e ->. reflexivity.
  - intros r e -> Hok Hjson. rewrite Hok. simpl. now rewrite Hjson.
  - destruct (fetch (methodRequest config call)) as [r|e]; simpl; [|discriminate].
    destruct (ok r); simpl; [|discriminate].
    destruct (responseJson r); simpl; discriminate.
Qed.

Lemma tool_outcomes_witness :
  let backend : HttpRequest -> Result Thrown Response :=
    fun _ => Return (mkResponse 404 "Not Found" (Return "model gpt-5 of project 17")
                       (Return "model gpt-5 of project 17")) in
  runTool parseSimple (fun data => data) demoConfig backend (GetModelDetail "gpt-5")
  = mkEnvelope
      [textBlock "Error getting model detail: Failed to get model: API returned status 404"]
      (Some true).
Proof.
  exact (proj1 (proj1 (proj2 (tool_outcomes parseSimple (fun data => data) demoConfig
           (fun _ => Return (mkResponse 404 "Not Found" (Return "model gpt-5 of project 17")
                               (Return "model gpt-5 of project 17")))
           (GetModelDetail "gpt-5")))
         (mkResponse 404 "Not Found" (Return "model gpt-5 of project 17")
            (Return "model gpt-5 of project 17")) eq_refl eq_refl)).
Defined.

Lemma unreserved_not_delimiter (c : ascii) :
  uriUnreserved c = true -> delimiter c = false.
Proof.
  destruct c as [[] [] [] [] [] [] [] []]; vm_compute; intros H;
    first [reflexivity | discriminate].
Qed.

Lemma hex_not_delimiter (c : ascii) :
  delimiter (hexDigit (nat_of_ascii c / 16)) = false /\
  delimiter (hexDigit (nat_of_ascii c mod 16)) = false.
Proof. destruct c as [[] [] [] [] [] [] [] []]; vm_compute; split; reflexivity. Qed.

(** No character of an encoded component can end the path segment or start
    a query. *)
Lemma encodeURIComponent_no_delimiter (s : string) (c : ascii) :
  In c (chars (encodeURIComponent s)) -> delimiter c = false.
Proof.
  induction s as [|a s IH]; simpl; [tauto|].
  destruct (uriUnreserved a) eqn:Ha; simpl.
  - intros [<-|H]; [now apply unreserved_not_delimiter | now apply IH].
  - destruct (hex_not_delimiter a) as [H1 H2].
    intros [<-|[<-|[<-|H]]]; [reflexivity | exact H1 | exact H2 | now apply IH].
Qed.

(** Unreserved text is left as it is. *)
Lemma encodeURIComponent_plain (s : string) :
  forallb uriUnreserved (chars s) = true -> encodeURIComponent s = s.
Proof.
  induction s as [|a s IH]; simpl; [reflexivity|].
  intros H. apply andb_prop in H as [Ha Hs]. rewrite Ha. f_equal. now apply IH.
Qed.

(** A model id, by contrast, goes into the path as it is. *)
Example model_id_is_not_encoded :
  methodUrl demoConfig (GetModelDetail "x/../../v2/datasets?limit=1")
  = "https://cloud.langfuse.com/api/public/models/x/../../v2/datasets?limit=1".
Proof. reflexivity. Qed.

(** The requests for a dataset item and for a prompt put the id or name
    into the path through [encodeURIComponent]: the URL is the base URL,
    the fixed path of the collection and one segment in which no [/], [?],
    [#], [&], [=] or space occurs, whatever the id; ids made of unreserved
    characters appear unchanged.  The deletion is a DELETE on that URL,
    with the key pair. *)
Theorem encoded_id_stays_in_its_path_segment
    (config : LangfuseProjectConfig) (itemId : string) :
  let segment := encodeURIComponent itemId in
  deleteDatasetItemRequest config itemId
  = mkHttp "DELETE"
      (mkRequest (baseUrl config ++ "/api/public/dataset-items/" ++ segment)
                 (Some (publicKey config, secretKey config))) /\
  requestUrl (target (getDatasetItemRequest config itemId))
  = requestUrl (target (deleteDatasetItemRequest config itemId)) /\
  (forall version label,
     methodUrl config (GetPromptDetail itemId version label)
     = baseUrl config ++ "/api/public/v2/prompts/" ++ segment ++ "?"
       ++ params_toString (appendString "label" label (appendDefined "version" version []))) /\
  (forall c, In c (chars segment) -> delimiter c = false) /\
  (forallb uriUnreserved (chars itemId) = true -> segment = itemId).
Proof.
  intros segment. split; [reflexivity|]. split; [reflexivity|].
  split; [reflexivity|]. split.
  - intros c. apply encodeURIComponent_no_delimiter.
  - apply encodeURIComponent_plain.
Qed.

Lemma encoded_id_stays_in_its_path_segment_witness :
  requestUrl (target (deleteDatasetItemRequest demoConfig "item 1/../../comments?x=1"))
  = "https://cloud.langfuse.com/api/public/dataset-items/item%201%2F..%2F..%2Fcomments%3Fx%3D1"
  /\ encodeURIComponent "item-42" = "item-42".
Proof.
  split; [reflexivity|].
  exact (proj2 (proj2 (proj2 (proj2
           (encoded_id_stays_in_its_path_segment demoConfig "item-42")))) eq_refl).
Defined.

(** A [page] or [limit] of 0 is treated as absent by the list methods
    ([listTraces], [listModels], [listPrompts]): the request is the one
    without it.  A prompt [version] of 0 is sent. *)
Theorem zero_paging_is_dropped_version_zero_is_sent
    (config : LangfuseProjectConfig) :
  (forall page limit name,
     methodUrl config (ListPrompts (Some 0%nat) page name)
     = methodUrl config (ListPrompts None page name) /\
     methodUrl config (ListPrompts limit (Some 0%nat) name)
     = methodUrl config (ListPrompts limit None name) /\
     methodUrl config (ListModels (Some 0%nat) page)
     = methodUrl config (ListModels None page) /\
     methodUrl config (ListModels limit (Some 0%nat))
     = methodUrl config (ListModels limit None)) /\
  (forall name userId tags filter orderBy orderDirection fromTimestamp toTimestamp,
     tracesUrl config (mkTraceParams (Some 0%nat) (Some 0%nat) name userId tags filter
                         orderBy orderDirection fromTimestamp toTimestamp)
     = tracesUrl config (mkTraceParams None None name userId tags filter
                           orderBy orderDirection fromTimestamp toTimestamp)) /\
  (forall promptName,
     methodUrl config (GetPromptDetail promptName (Some 0%nat) None)
     = baseUrl config ++ "/api/public/v2/prompts/" ++ encodeURIComponent promptName
       ++ "?version=0" /\
     methodUrl config (GetPromptDetail promptName None None)
     = baseUrl config ++ "/api/public/v2/prompts/" ++ encodeURIComponent promptName ++ "?").
Proof.
  split; [|split].
  - intros page limit name. repeat split; reflexivity.
  - intros. reflexivity.
  - intros promptName. split; reflexivity.
Qed.

(** From the request to the envelope: a call of one of these tools that
    passes its schema is answered with the envelope of the tool; when the
    backend answers with a status outside 2xx, the caller gets
    [isError: true] and a text made of the tool, the operation and the
    status code only.  Arguments that do not pass the schema give
    ["Error: "] and the message of the parser. *)
Theorem served_tool_failure_envelope
    (RawArgs : Type) (parse : string -> RawArgs -> Result Thrown ToolCall)
    (URL_parse : string -> option URL) (JSON_stringify : string -> string)
    (config : LangfuseProjectConfig) (fetch : HttpRequest -> Result Thrown Response)
    (call : ToolCall) (arguments : RawArgs) :
  let serve :=
    Server.callTool RawArgs
      (ServedTools.servedCase parse (runTool URL_parse JSON_stringify config fetch)) in
  (parse (ServedTools.toolName call) arguments = Return call ->
   serve (ServedTools.toolName call) arguments
   = runTool URL_parse JSON_stringify config fetch call) /\
  (forall r, parse (ServedTools.toolName call) arguments = Return call ->
     fetch (methodRequest config call) = Return r -> ok r = false ->
     serve (ServedTools.toolName call) arguments
     = mkEnvelope
         [textBlock ("Error " ++ toolDoing call ++ ": Failed to "
                     ++ toLowerCase (methodOperation call)
                     ++ ": API returned status " ++ showNat (status r))]
         (Some true)) /\
  (forall e, parse (ServedTools.toolName call) arguments = Throw e ->
     serve (ServedTools.toolName call) arguments
     = mkEnvelope [textBlock ("Error: " ++ errorMessageOf e)] (Some true)).
Proof.
  intros serve.
  assert (Hin : existsb (String.eqb (ServedTools.toolName call)) Server.toolNames = true)
    by (destruct call; reflexivity).
  subst serve. unfold Server.callTool, Server.dispatch, ServedTools.servedCase.
  rewrite Hin. split; [|split].
  - intros ->. reflexivity.
  - intros r -> Hf Hok. unfold runTool, clientMethod. rewrite Hf, Hok. reflexivity.
  - intros e ->. reflexivity.
Qed.

Lemma served_tool_failure_envelope_witness :
  let parse : string -> string -> Result Thrown ToolCall :=
    fun name modelId =>
      if String.eqb name "get_model_detail" then Return (GetModelDetail modelId)
      else Throw (ErrorObj "Required") in
  let backend : HttpRequest -> Result Thrown Response :=
    fun _ => Return (mkResponse 404 "Not Found" (Return "model gpt-5 of project 17")
                       (Return "model gpt-5 of project 17")) in
  Server.callTool string
    (ServedTools.servedCase parse (runTool parseSimple (fun data => data) demoConfig backend))
    "get_model_detail" "gpt-5"
  = mkEnvelope
      [textBlock "Error getting model detail: Failed to get model: API returned status 404"]
      (Some true).
Proof.
  exact (proj1 (proj2 (served_tool_failure_envelope string
           (fun name modelId =>
              if String.eqb name "get_model_detail" then Return (GetModelDetail modelId)
              else Throw (ErrorObj "Required"))
           parseSimple (fun data => data) demoConfig
           (fun _ => Return (mkResponse 404 "Not Found" (Return "model gpt-5 of project 17")
                               (Return "model gpt-5 of project 17")))
           (GetModelDetail "gpt-5") "gpt-5"))
         (mkResponse 404 "Not Found" (Return "model gpt-5 of project 17")
            (Return "model gpt-5 of project 17")) eq_refl eq_refl eq_refl).
Defined.

End ToolFacts.

(* ===================================================================== *)
(** ** Every call of [getConfig] makes a new object *)
(* ===================================================================== *)

Module CallerFacts.
Import Js ClientObject Caller CallerShape ClientObjectFacts.

Lemma mutate_keeps_objects (l k : nat) (store : Store) (m : Mutation) :
  is_Some (store !! k) -> is_Some (mutate l store m !! k).
Proof.
  intros Hk. unfold mutate. destruct (store !! l) as [o|] eqn:Hl; [|exact Hk].
  destruct (decide (l = k)) as [->|Hne].
  - rewrite lookup_insert_eq. eauto.
  - now rewrite lookup_insert_ne.
Qed.

Lemma callerStep_handedOut (c : Client) (store0 : Store) (s : CallerState) (op : CallerOp) :
  handedOut store0 s -> handedOut store0 (callerStep c s op).
Proof.
  intros (Hnd & Hret & Hmono). destruct op as [|i m]; simpl.
  - set (l := fresh (dom (store s))).
    assert (Hfresh : store s !! l = None) by apply not_elem_of_dom, is_fresh.
    split; [|split]; simpl.
    + apply List.NoDup_app; [exact Hnd | repeat constructor; simpl; tauto |].
      intros x Hx [<-|[]].
      destruct (Hret l Hx) as [[o Ho] _]. congruence.
    + intros k Hk. apply in_app_or in Hk as [Hk|[<-|[]]].
      * destruct (Hret k Hk) as [Hsome Hnone]. split; [|exact Hnone].
        destruct (decide (l = k)) as [->|Hne];
          [rewrite lookup_insert_eq; eauto | now rewrite lookup_insert_ne].
      * split; [rewrite lookup_insert_eq; eauto|].
        destruct (store0 !! l) eqn:E; [|reflexivity].
        destruct (Hmono l) as [o Ho]; [eauto | congruence].
    + intros k Hk. specialize (Hmono k Hk).
      destruct (decide (l = k)) as [->|Hne];
        [rewrite lookup_insert_eq; eauto | now rewrite lookup_insert_ne].
  - destruct (returned s !! i) as [l|]; [|exact (conj Hnd (conj Hret Hmono))].
    split; [exact Hnd|]. split; simpl.
    + intros k Hk. destruct (Hret k Hk) as [Hsome Hnone].
      split; [now apply mutate_keeps_objects | exact Hnone].
    + intros k Hk. now apply mutate_keeps_objects, Hmono.
Qed.

Lemma callerRun_handedOut (c : Client) (store0 : Store) (ops : list CallerOp)
    (s : CallerState) :
  handedOut store0 s -> handedOut store0 (callerRun c ops s).
Proof.
  unfold callerRun. revert s.
  induction ops as [|op ops IH]; intros s Hs; simpl; [exact Hs|].
  apply IH. now apply callerStep_handedOut.
Qed.

Lemma callerRun_count (c : Client) (ops : list CallerOp) (s : CallerState) :
  length (returned (callerRun c ops s))
  = (length (returned s) + length (List.filter isGetConfig ops))%nat.
Proof.
  unfold callerRun. revert s.
  induction ops as [|op ops IH]; intros s; simpl; [lia|].
  rewrite IH. destruct op as [|i m]; simpl.
  - rewrite length_app. simpl. lia.
  - destruct (returned s !! i); simpl; lia.
Qed.

(** Each call of [getConfig] hands out a reference of its own: in any run
    of calls and mutations, the references returned are pairwise different
    objects of the store, none of them an object that existed before the
    run, and there is one per call. *)
Theorem getConfig_makes_a_new_object_each_time
    (c : Client) (store0 : Store) (ops : list CallerOp) :
  let final := callerRun c ops (mkCallerState store0 []) in
  List.NoDup (returned final) /\
  (forall l, In l (returned final) -> is_Some (store final !! l) /\ store0 !! l = None) /\
  length (returned final) = length (List.filter isGetConfig ops).
Proof.
  intros final.
  destruct (callerRun_handedOut c store0 ops (mkCallerState store0 []))
    as (Hnd & Hret & _).
  - split; [constructor|]. split; [intros l []|]. intros l Hl. exact Hl.
  - split; [exact Hnd|]. split; [exact Hret|].
    subst final. now rewrite callerRun_count.
Qed.

End CallerFacts.
